(** * Verification of [scripts/build_python.py]

    The script builds every Python package of the workspace into a wheel.
    Its [main] walks a fixed list of package names, skips the ones without a
    [pyproject.toml], removes stale build directories, runs
    [python -m build --wheel] in a child process and prints a summary.

    The development embeds [run_command] and [main] in a state-and-exception
    monad over an abstract file system and an event log, and proves what the
    design document says about them.

    What the model takes for granted:
    - paths are POSIX paths below the workspace root, without symbolic
      links; a package name is one path component;
    - the child process is a function of the events so far, its command
      line, its working directory and the file system; it may change the
      file system at will;
    - [print] cannot fail; [exists] and [glob] report what the file system
      shows and do not raise;
    - the output a child process leaves may fail to decode as text, in
      which case [subprocess.run] raises [UnicodeDecodeError] once the child
      has exited;
    - [os.mkdir] of a missing directory and [stat] of an entry a directory
      lists may be refused by the operating system;
    - [shutil.rmtree] may be refused by the operating system on any tree,
      after having removed any part of it, with whatever [OSError] the
      failing entry gave;
    - the size of a wheel is kept in bytes: the floating-point formatting of
      line 117-118 is not modelled. *)

From Stdlib Require Import ZArith.
From stdpp Require Import gmap strings list fin_maps sorting.

Open Scope string_scope.
Open Scope list_scope.

(** ** Paths *)

(** A [pathlib.Path] below the workspace root, as its list of components.
    [workspace_root] itself is the empty list.  Package names of the candidate
    list are single components. *)
Definition path := list string.

Definition path_div (p : path) (c : string) : path := p ++ [c].
Infix "</>" := path_div (at level 40, left associativity).

(** ** The file system *)

(** One directory entry: what [exists], [is_dir] and [stat().st_size] see. *)
Record node := Node { is_dir : bool; st_size : N }.

Abbreviation filesystem := (gmap path node).

(** ** Exceptions of the Python runtime that the script can meet *)

(** The subclasses of [OSError] that matter here. *)
Inductive os_error :=
| FileNotFoundError
| PermissionError
| FileExistsError
| NotADirectoryError
| OtherOSError (errno : Z).

Inductive exn :=
| CalledProcessError (returncode : Z) (stdout stderr : string)
| OSError (kind : os_error) (filename : string)
| UnicodeDecodeError.

(** ** Output lines, one constructor per [print] site of the script *)

Inductive line :=
| SectionBanner (msg : string)          (* print_section(msg): rule, msg, rule *)
| OutputDirectory (dir : string)        (* "Output directory: {dist_dir}\n" *)
| Skipping (package : string)           (* "Skipping {package} (no pyproject.toml)" *)
| Building (package : string)           (* "Building {package}..." *)
| SuccessLine (msg : string)            (* print_success(msg) *)
| ErrorLine (msg : string)              (* print_error(msg) *)
| Output (text : string)                (* print(output) *)
| BuiltHeader (n : nat)                 (* "Successfully built {n} package(s):" *)
| BuiltItem (pkg : string)              (* "  v {pkg}" *)
| FailedHeader (n : nat)                (* "Failed to build {n} package(s):" *)
| FailedItem (pkg : string)             (* "  x {pkg}" *)
| WheelHeader                           (* "Built wheel files:" *)
| WheelItem (name : string) (size : N)  (* "  {whl.name} ({size_mb:.2f} MB)" *)
| InstallHeader                         (* "Installation command:" *)
| InstallCommand (dist : string).       (* "  pip install {dist_dir}/*.whl" *)

(** ** Observable events of a run, in the order they happen *)

Inductive event :=
| EPrint (l : line)
| EMkdir (p : path)
| ERmtree (p : path)
| ESpawn (cmd : list string) (cwd : path).

(** ** The platform: everything the script does not decide itself *)

(** What [subprocess.run] observes of a child process: it ran to its end
    and both captured streams decode as text; it ran to its end but a
    captured stream does not decode; or it could not be started. *)
Inductive proc :=
| Exited (returncode : Z) (stdout stderr : string) (after : filesystem)
| Garbled (returncode : Z) (after : filesystem)
| NotStarted (kind : os_error) (filename : string).

(** The file system a child process that ran leaves behind. *)
Definition left_by (pr : proc) : option filesystem :=
  match pr with
  | Exited _ _ _ after | Garbled _ after => Some after
  | NotStarted _ _ => None
  end.

Record platform := Platform {
  (** absolute path of the workspace root, for [str(path)] *)
  workspace_root_str : string;
  (** [sys.executable] *)
  sys_executable : string;
  (** size [stat] reports for a directory made by [mkdir] *)
  new_dir_size : N;
  (** the child process: given the events so far, the command line, the
      working directory and the file system, either it cannot be started or
      it runs to completion, leaving a file system behind *)
  spawn : list event → list string → path → filesystem → proc;
  (** [shutil.rmtree] refused by the operating system: the [OSError] of the
      entry that could not be removed, with the file name the operating
      system gave it, and the entries below the target that were already
      gone when it was raised *)
  rmtree_fault : path → filesystem → option (os_error * string * (path → bool));
  (** [os.mkdir] of a missing directory refused by the operating system
      (no permission, a read-only file system) *)
  mkdir_fault : path → filesystem → option os_error;
  (** [stat] of an entry that its directory lists refused by the operating
      system (a dangling link, no permission) *)
  stat_fault : path → filesystem → option os_error;
}.

(** ** The monad: state (file system, event log) and exceptions *)

Record state := State { fs : filesystem; log : list event }.

Inductive result (A : Type) :=
| Ok (a : A) (s : state)
| Raise (e : exn) (s : state).
Arguments Ok {A} a s.
Arguments Raise {A} e s.

Definition M (A : Type) := state → result A.

#[global] Instance M_ret : MRet M := λ A a s, Ok a s.

#[global] Instance M_bind : MBind M :=
  λ A B k m s, match m s with
               | Ok a s' => k a s'
               | Raise e s' => Raise e s'
               end.

(** [try: body except <handler's domain>: handler]: an exception the handler
    does not cover keeps propagating. *)
Definition try_except {A} (body : M A) (handler : exn → option (M A)) : M A :=
  λ s, match body s with
       | Ok a s' => Ok a s'
       | Raise e s' =>
           match handler e with
           | Some h => h s'
           | None => Raise e s'
           end
       end.

(** The state a computation ends in, whether it returns or raises. *)
Definition final {A} (r : result A) : state :=
  match r with
  | Ok _ s => s
  | Raise _ s => s
  end.

Definition returned {A} (r : result A) : option A :=
  match r with
  | Ok a _ => Some a
  | Raise _ _ => None
  end.

Definition raised {A} (r : result A) : option exn :=
  match r with
  | Ok _ _ => None
  | Raise e _ => Some e
  end.

(** [for x in l: body(x)] *)
Fixpoint for_each {A} (l : list A) (body : A → M unit) : M unit :=
  match l with
  | [] => mret tt
  | x :: l' => body x ;; for_each l' body
  end.

(** [for x in l: ...] where the body updates local variables [V]. *)
Fixpoint for_each_acc {A V} (l : list A) (body : A → V → M V) (v : V) : M V :=
  match l with
  | [] => mret v
  | x :: l' => v' ← body x v; for_each_acc l' body v'
  end.

Definition record (e : event) (s : state) : state :=
  State (fs s) (log s ++ [e]).

Definition print (l : line) : M unit := λ s, Ok tt (record (EPrint l) s).

(** ** File-system primitives *)

(** [Path.exists()] *)
Definition path_exists (p : path) : M bool :=
  λ s, Ok (bool_decide (is_Some (fs s !! p))) s.

(** The entry [kv] lies in the tree rooted at [p] (or is [p] itself). *)
Definition below (p : path) (kv : path * node) : Prop := p `prefix_of` kv.1.

#[global] Instance below_dec p kv : Decision (below p kv).
Proof. unfold below. apply _. Defined.

(** The file system without the tree rooted at [p]. *)
Definition remove_tree (p : path) (m : filesystem) : filesystem :=
  filter (λ kv, ¬ below p kv) m.

(** The file system after an interrupted removal of the tree at [p]. *)
Definition remove_some (p : path) (gone : path → bool) (m : filesystem) : filesystem :=
  filter (λ kv, ¬ (below p kv ∧ gone kv.1 = true)) m.

(** [name] matches the pattern ["*.whl"]: it ends with [".whl"]. *)
Definition ends_with (suffix name : string) : bool :=
  let n := String.length name in
  let m := String.length suffix in
  (m <=? n)%nat && String.eqb (String.substring (n - m) m name) suffix.

Definition is_whl (name : string) : bool := ends_with ".whl" name.

(** [os.scandir(dir)]: the names of the entries of [dir], in the order the
    platform enumerates them; nothing when [dir] is not a directory. *)
Definition entry_of (dir : path) (kv : path * node) : option string :=
  match last kv.1 with
  | Some name => if bool_decide (kv.1 = dir </> name) then Some name else None
  | None => None
  end.

Definition dir_entries (dir : path) (m : filesystem) : list string :=
  match m !! dir with
  | Some n => if is_dir n then omap (entry_of dir) (map_to_list m) else []
  | None => []
  end.

(** [[w.name for w in dir.glob("*.whl")]] *)
Definition whl_names (dir : path) (m : filesystem) : list string :=
  filter (λ name, is_whl name = true) (dir_entries dir m).

Section Script.

Variable Π : platform.

(** [str(path)] *)
Definition path_str (p : path) : string :=
  String.concat "/" (workspace_root_str Π :: p).

(** [shutil.rmtree(p)]: refuses a target that is not a directory; otherwise
    removes the whole tree unless the operating system objects midway, and
    then re-raises the error of the entry that could not be removed. *)
Definition rmtree (p : path) : M unit :=
  λ s, let s1 := record (ERmtree p) s in
       match fs s !! p with
       | None => Raise (OSError FileNotFoundError (path_str p)) s1
       | Some n =>
           if is_dir n then
             match rmtree_fault Π p (fs s) with
             | None => Ok tt (State (remove_tree p (fs s)) (log s1))
             | Some (kind, filename, gone) =>
                 Raise (OSError kind filename)
                       (State (remove_some p gone (fs s)) (log s1))
             end
           else Raise (OSError NotADirectoryError (path_str p)) s1
       end.

(** [Path.mkdir(parents=True, exist_ok=True)] of [target], component by
    component: [made] is the part of the path already known to be a
    directory.  An entry on the way that is not a directory makes [os.mkdir]
    of [target] fail: [FileExistsError] when it is the target itself,
    [NotADirectoryError] when it is one of its parents.  A missing
    component is created by [os.mkdir], whose error, when the operating
    system refuses, is raised again with the path it was called on. *)
Fixpoint mkdir_from (target made : path) (rest : list string) : M unit :=
  match rest with
  | [] => mret tt
  | c :: rest' =>
      let p := made </> c in
      λ s, match fs s !! p with
           | None =>
               match mkdir_fault Π p (fs s) with
               | Some kind => Raise (OSError kind (path_str p)) s
               | None =>
                   mkdir_from target p rest'
                     (State (<[p := Node true (new_dir_size Π)]> (fs s)) (log s))
               end
           | Some n =>
               if is_dir n then mkdir_from target p rest' s
               else match rest' with
                    | [] => Raise (OSError FileExistsError (path_str target)) s
                    | _ => Raise (OSError NotADirectoryError (path_str target)) s
                    end
           end
  end.

Definition mkdir_parents_exist_ok (p : path) : M unit :=
  λ s, mkdir_from p [] p (record (EMkdir p) s).

(** [subprocess.run(cmd, cwd=cwd, check=check, capture_output=True, text=True)]:
    the captured streams are decoded when the child has exited and before
    its exit status is looked at. *)
Record CompletedProcess := Completed {
  cp_returncode : Z; cp_stdout : string; cp_stderr : string }.

Definition subprocess_run (cmd : list string) (cwd : path) (check : bool)
  : M CompletedProcess :=
  λ s, let s1 := record (ESpawn cmd cwd) s in
       match spawn Π (log s) cmd cwd (fs s) with
       | NotStarted kind filename => Raise (OSError kind filename) s1
       | Garbled rc after => Raise UnicodeDecodeError (State after (log s1))
       | Exited rc out err after =>
           let s2 := State after (log s1) in
           if check && negb (rc =? 0)%Z
           then Raise (CalledProcessError rc out err) s2
           else Ok (Completed rc out err) s2
       end.

(** [run_command], lines 32-44. *)
Definition run_command (cmd : list string) (cwd : path) : M (bool * string) :=
  try_except
    (result ← subprocess_run cmd cwd true;
     mret (true, cp_stdout result))
    (λ e, match e with
          | CalledProcessError _ _ stderr => Some (mret (false, stderr))
          | _ => None
          end).

(** [print_section], [print_success], [print_error], lines 21-30. *)
Definition print_section (msg : string) : M unit := print (SectionBanner msg).
Definition print_success (msg : string) : M unit := print (SuccessLine msg).
Definition print_error (msg : string) : M unit := print (ErrorLine msg).

(** The directories of lines 48-51, relative to [workspace_root]. *)
Definition python_dir : path := [] </> "clients" </> "python".
Definition dist_dir : path := [] </> "dist" </> "python".
Definition venv_python : path := python_dir </> ".venv" </> "bin" </> "python".

(** Lines 54-55: the interpreter that runs the build tool. *)
Definition chosen_python (m : filesystem) : string :=
  if bool_decide (is_Some (m !! venv_python))
  then path_str venv_python else sys_executable Π.

(** Line 79: the stale directories of one package. *)
Definition cleanup_dirs (package : string) : list string :=
  ["build"; "dist"; package +:+ ".egg-info";
   "geniustechspace_" +:+ package +:+ ".egg-info"].

(** Lines 79-82, the loop over a list of directory names. *)
Definition clean_dirs (package_dir : path) (cs : list string) : M unit :=
  for_each cs (λ cleanup_dir,
    let cleanup_path := package_dir </> cleanup_dir in
    b ← path_exists cleanup_path;
    if (b : bool) then rmtree cleanup_path else mret tt).

(** Lines 78-82: clean previous builds. *)
Definition clean_previous_builds (package_dir : path) (package : string) : M unit :=
  clean_dirs package_dir (cleanup_dirs package).

(** Line 86: the command line of the build tool. *)
Definition build_cmd (python_cmd : string) : list string :=
  [python_cmd; "-m"; "build"; "--wheel"; "--outdir"; path_str dist_dir].

(** Line 72: the test that lets a candidate through. *)
Definition eligible (m : filesystem) (package : string) : bool :=
  let package_dir := python_dir </> package in
  negb (negb (bool_decide (is_Some (m !! package_dir)))
        || negb (bool_decide (is_Some (m !! (package_dir </> "pyproject.toml"))))).

(** Lines 69-96: the body of the loop over [packages]; the local lists
    [built_packages] and [failed_packages] are threaded through. *)
Definition build_package (python_cmd : string) (package : string)
    (lists : list string * list string) : M (list string * list string) :=
  let '(built_packages, failed_packages) := lists in
  let package_dir := python_dir </> package in
  e1 ← path_exists package_dir;
  e2 ← path_exists (package_dir </> "pyproject.toml");
  if negb e1 || negb e2 then
    print (Skipping package) ;;
    mret (built_packages, failed_packages)
  else
    print (Building package) ;;
    clean_previous_builds package_dir package ;;
    '(success, output) ←
      run_command (build_cmd python_cmd) package_dir;
    if (success : bool) then
      print_success (package +:+ " built successfully") ;;
      mret (built_packages ++ [package], failed_packages)
    else
      print_error (package +:+ " build failed:") ;;
      print (Output output) ;;
      mret (built_packages, failed_packages ++ [package]).

(** [sorted(whl_files)]: the entries share their parent, so paths compare
    as their names do; Python compares [str] by code points, which on UTF-8
    bytes is [String.le].  The order is total and antisymmetric, so the
    sorted list does not depend on the sorting algorithm. *)
Definition sorted_names (names : list string) : list string :=
  merge_sort String.le names.

(** [dist_dir.glob("*.whl")], as entry names. *)
Definition glob_whl (dir : path) : M (list string) :=
  λ s, Ok (whl_names dir (fs s)) s.

(** [whl.stat().st_size] *)
Definition stat_size (p : path) : M N :=
  λ s, match fs s !! p with
       | Some n =>
           match stat_fault Π p (fs s) with
           | Some kind => Raise (OSError kind (path_str p)) s
           | None => Ok (st_size n) s
           end
       | None => Raise (OSError FileNotFoundError (path_str p)) s
       end.

(** Lines 98-121: the summary. *)
Definition print_summary (built_packages failed_packages : list string) : M unit :=
  print_section "Build Summary" ;;
  (if bool_decide (built_packages = []) then mret tt
   else
     print (BuiltHeader (length built_packages)) ;;
     for_each built_packages (λ pkg, print (BuiltItem pkg))) ;;
  (if bool_decide (failed_packages = []) then mret tt
   else
     print (FailedHeader (length failed_packages)) ;;
     for_each failed_packages (λ pkg, print (FailedItem pkg))) ;;
  d ← path_exists dist_dir;
  if (d : bool) then
    whl_files ← glob_whl dist_dir;
    if bool_decide (whl_files = []) then mret tt
    else
      print WheelHeader ;;
      for_each (sorted_names whl_files) (λ name,
        size ← stat_size (dist_dir </> name);
        print (WheelItem name size)) ;;
      print InstallHeader ;;
      print (InstallCommand (path_str dist_dir))
  else mret tt.

(** Lines 112-121 on their own, the last statement of the summary. *)
Definition list_wheels : M unit :=
  d ← path_exists dist_dir;
  if (d : bool) then
    whl_files ← glob_whl dist_dir;
    if bool_decide (whl_files = []) then mret tt
    else
      print WheelHeader ;;
      for_each (sorted_names whl_files) (λ name,
        size ← stat_size (dist_dir </> name);
        print (WheelItem name size)) ;;
      print InstallHeader ;;
      print (InstallCommand (path_str dist_dir))
  else mret tt.

(** The run result: the two local lists as they stand at line 124, and the
    value [main] returns. *)
Record run_result := RunResult {
  successes : list string;
  failures : list string;
  exit_signal : Z }.

(** [main], lines 46-124, over a candidate list [packages]. *)
Definition run (packages : list string) : M run_result :=
  v ← path_exists venv_python;
  let python_cmd := if (v : bool) then path_str venv_python else sys_executable Π in
  print_section "Building Python Packages for Distribution" ;;
  mkdir_parents_exist_ok dist_dir ;;
  print (OutputDirectory (path_str dist_dir)) ;;
  '(built_packages, failed_packages) ←
    for_each_acc packages (build_package python_cmd) ([], []);
  print_summary built_packages failed_packages ;;
  mret (RunResult built_packages failed_packages
         (if bool_decide (failed_packages = []) then 0 else 1)).

(** Line 64: the candidates. *)
Definition packages : list string := ["core"; "idp"; "notification"].

Definition main : M Z := r ← run packages; mret (exit_signal r).

End Script.

(** [sys.exit(main())]: the status of the process. An exception that leaves
    [main] ends the interpreter with a traceback and status 1. *)
Definition process_exit (r : result Z) : Z :=
  match r with
  | Ok code _ => code
  | Raise _ _ => 1
  end.

(** ** A concrete workspace to run the script on *)

Definition dir_node : node := Node true 4096.
Definition file_node (size : N) : node := Node false size.

Definition fs_of (entries : list (path * node)) : filesystem := list_to_map entries.

Definition demo_fs : filesystem := fs_of [
  (["clients"], dir_node);
  (["clients"; "python"], dir_node);
  (["clients"; "python"; "core"], dir_node);
  (["clients"; "python"; "core"; "pyproject.toml"], file_node 300);
  (["clients"; "python"; "core"; "build"], dir_node);
  (["clients"; "python"; "core"; "build"; "lib"], dir_node);
  (["clients"; "python"; "idp"], dir_node);
  (["clients"; "python"; "idp"; "pyproject.toml"], file_node 280);
  (["clients"; "python"; "idp"; "build"], dir_node);
  (["dist"], dir_node);
  (["dist"; "python"], dir_node);
  (["dist"; "python"; "old-0.0.9-py3-none-any.whl"], file_node 2048)
].

(** A build tool that writes one wheel per package and fails for [idp]. *)
Definition demo_spawn (_ : list event) (cmd : list string) (cwd : path)
    (m : filesystem) : proc :=
  match last cwd with
  | Some pkg =>
      if bool_decide (pkg = "idp") then Exited 1 "" "missing dependency X" m
      else
        Exited 0 "built" ""
          (<[dist_dir </> (pkg +:+ "-0.1.0-py3-none-any.whl") := file_node 1000]> m)
  | None => NotStarted FileNotFoundError ""
  end.

Definition demo : platform :=
  Platform "/ws" "/usr/bin/python3" 4096 demo_spawn (λ _ _, None) (λ _ _, None)
    (λ _ _, None).

Definition start (m : filesystem) : state := State m [].

(** The same workspace on a machine whose interpreter cannot be executed. *)
Definition no_interpreter : platform :=
  Platform "/ws" "/usr/bin/python3" 4096
    (λ _ cmd _ _, NotStarted FileNotFoundError (default "" (head cmd)))
    (λ _ _, None) (λ _ _, None) (λ _ _, None).

(** The same workspace where [lib] in [core/build] may not be removed. *)
Definition denied : platform :=
  Platform "/ws" "/usr/bin/python3" 4096 demo_spawn
    (λ p _, if bool_decide (p = python_dir </> "core" </> "build")
            then Some (PermissionError, "lib", λ _, false) else None)
    (λ _ _, None) (λ _ _, None).

(** The same workspace with a build tool whose output for [idp] is not
    text in the encoding of the locale; it exits with status 1 there. *)
Definition garbling : platform :=
  Platform "/ws" "/usr/bin/python3" 4096
    (λ h cmd cwd m,
       if bool_decide (last cwd = Some "idp") then Garbled 1 m
       else demo_spawn h cmd cwd m)
    (λ _ _, None) (λ _ _, None) (λ _ _, None).


(** The same workspace on a file system mounted read-only. *)
Definition read_only : platform :=
  Platform "/ws" "/usr/bin/python3" 4096 demo_spawn (λ _ _, None)
    (λ _ _, Some (OtherOSError 30)) (λ _ _, None).

(** A workspace in which no candidate has a build descriptor. *)
Definition bare_fs : filesystem := fs_of [
  (["clients"], dir_node);
  (["clients"; "python"], dir_node);
  (["clients"; "python"; "core"], dir_node)
].

(** The runs of [main] on the demonstration workspace. *)
Definition demo_run : result run_result := run demo packages (start demo_fs).
Definition denied_run : result run_result := run denied packages (start demo_fs).
Definition no_interpreter_run : result run_result :=
  run no_interpreter packages (start demo_fs).
Definition demo_result : run_result := RunResult ["core"] ["idp"] 1.

(** The state in which the loop of line 69 starts, when [mkdir] succeeded. *)
Definition loop_start (Π : platform) (m : filesystem) : state :=
  record (EPrint (OutputDirectory (path_str Π dist_dir)))
    (final (mkdir_parents_exist_ok Π dist_dir
       (record (EPrint (SectionBanner "Building Python Packages for Distribution"))
          (start m)))).

(** [q] is a directory, or is missing and the operating system lets it be
    created. *)
Definition can_make (Π : platform) (m : filesystem) (q : path) : bool :=
  match m !! q with
  | Some n => is_dir n
  | None => match mkdir_fault Π q m with None => true | Some _ => false end
  end.

(** The file system once [q] was created, if it was missing. *)
Definition with_dir (Π : platform) (m : filesystem) (q : path) : filesystem :=
  match m !! q with
  | Some _ => m
  | None => <[q := Node true (new_dir_size Π)]> m
  end.

(** Line 60 has nothing in its way: neither the output directory nor its
    parent is there as something other than a directory, and what is
    missing of the two may be created. *)
Definition dist_dir_creatable (Π : platform) (m : filesystem) : bool :=
  can_make Π m ([] </> "dist") &&
  can_make Π (with_dir Π m ([] </> "dist")) dist_dir.

(** [stat] is not refused for any wheel the output directory lists. *)
Definition wheels_readable (Π : platform) (m : filesystem) : Prop :=
  ∀ name, name ∈ whl_names dist_dir m → stat_fault Π (dist_dir </> name) m = None.

(** ** Reading a run off its results *)

(** The candidates in the order the loop examined them: each one leaves
    either its "Skipping" or its "Building" line. *)
Definition notice (e : event) : option string :=
  match e with
  | EPrint (Skipping p) | EPrint (Building p) => Some p
  | _ => None
  end.

Definition examined (t : list event) : list string := omap notice t.

(** The candidates that passed line 72. *)
Definition started (t : list event) : list string :=
  omap (λ e, match e with EPrint (Building p) => Some p | _ => None end) t.

(** The candidates that line 72 turned away. *)
Definition skipped (t : list event) : list string :=
  omap (λ e, match e with EPrint (Skipping p) => Some p | _ => None end) t.

(** The directories handed to [shutil.rmtree]. *)
Definition removals (t : list event) : list path :=
  omap (λ e, match e with ERmtree p => Some p | _ => None end) t.

(** The lines of the artifact section of the summary (lines 115-121). *)
Definition artifact_line (l : line) : bool :=
  match l with
  | WheelHeader | WheelItem _ _ | InstallHeader | InstallCommand _ => true
  | _ => false
  end.

Definition artifact_lines (t : list event) : list line :=
  omap (λ e, match e with
             | EPrint l => if artifact_line l then Some l else None
             | _ => None
             end) t.

(** The build tool leaves the entry at [q] as it found it. *)
Definition tool_keeps (Π : platform) (q : path) : Prop :=
  ∀ h cmd cwd m after,
    left_by (spawn Π h cmd cwd m) = Some after → after !! q = m !! q.

(** The build tool neither creates nor removes a package directory or a
    build descriptor. *)
Definition tool_keeps_descriptors (Π : platform) : Prop :=
  ∀ h cmd cwd m after p,
    left_by (spawn Π h cmd cwd m) = Some after →
    eligible after p = eligible m p.

(** The stale directories of a package, as paths. *)
Definition cleanup_paths (package : string) : list path :=
  (λ c, python_dir </> package </> c) <$> cleanup_dirs package.

(** The events one pass of the loop body leaves for [package], with the
    lists it hands to the next pass ([None] when an exception left it). *)
Inductive step_trace (cmd : list string) (package : string)
    (built failed : list string)
  : list event → option (list string * list string) → Prop :=
| step_skip :
    step_trace cmd package built failed
      [EPrint (Skipping package)] (Some (built, failed))
| step_built rs :
    rs `sublist_of` cleanup_paths package →
    step_trace cmd package built failed
      (EPrint (Building package) :: (ERmtree <$> rs) ++
       [ESpawn cmd (python_dir </> package);
        EPrint (SuccessLine (package +:+ " built successfully"))])
      (Some (built ++ [package], failed))
| step_failed rs stderr :
    rs `sublist_of` cleanup_paths package →
    step_trace cmd package built failed
      (EPrint (Building package) :: (ERmtree <$> rs) ++
       [ESpawn cmd (python_dir </> package);
        EPrint (ErrorLine (package +:+ " build failed:"));
        EPrint (Output stderr)])
      (Some (built, failed ++ [package]))
| step_raise_clean rs :
    rs `sublist_of` cleanup_paths package →
    step_trace cmd package built failed
      (EPrint (Building package) :: (ERmtree <$> rs)) None
| step_raise_spawn rs :
    rs `sublist_of` cleanup_paths package →
    step_trace cmd package built failed
      (EPrint (Building package) :: (ERmtree <$> rs) ++
       [ESpawn cmd (python_dir </> package)]) None.

(** The events of a loop that ran to its end over [pkgs]. *)
Inductive loop_trace (cmd : list string)
  : list string → list string → list string → list event →
    list string → list string → Prop :=
| loop_done built failed :
    loop_trace cmd [] built failed [] built failed
| loop_next package pkgs built failed t1 built1 failed1 t2 built2 failed2 :
    step_trace cmd package built failed t1 (Some (built1, failed1)) →
    loop_trace cmd pkgs built1 failed1 t2 built2 failed2 →
    loop_trace cmd (package :: pkgs) built failed (t1 ++ t2) built2 failed2.

(** The lines of the artifact listing for a file system. *)
Definition wheel_lines (root : string) (m : filesystem) : list line :=
  match m !! dist_dir with
  | None => []
  | Some _ =>
      let whl_files := whl_names dist_dir m in
      if bool_decide (whl_files = []) then []
      else WheelHeader ::
           ((λ name, WheelItem name
                       (default 0%N (st_size <$> m !! (dist_dir </> name))))
              <$> merge_sort String.le whl_files) ++
           [InstallHeader; InstallCommand (String.concat "/" (root :: dist_dir))]
  end.

(** The lines of lines 99-109: the banner and the two package lists. *)
Definition summary_head (built failed : list string) : list line :=
  SectionBanner "Build Summary" ::
  (if bool_decide (built = []) then []
   else BuiltHeader (length built) :: (BuiltItem <$> built)) ++
  (if bool_decide (failed = []) then []
   else FailedHeader (length failed) :: (FailedItem <$> failed)).

(** The lines of the whole summary. *)
Definition summary_lines (root : string) (built failed : list string)
    (m : filesystem) : list line :=
  SectionBanner "Build Summary" ::
  (if bool_decide (built = []) then []
   else BuiltHeader (length built) :: (BuiltItem <$> built)) ++
  (if bool_decide (failed = []) then []
   else FailedHeader (length failed) :: (FailedItem <$> failed)) ++
  wheel_lines root m.
Arguments summary_lines : simpl never.

(** The lines that only the summary prints. *)
Definition summary_line (l : line) : bool :=
  match l with
  | SectionBanner _ | BuiltHeader _ | BuiltItem _ | FailedHeader _
  | FailedItem _ | WheelHeader | WheelItem _ _ | InstallHeader
  | InstallCommand _ => true
  | _ => false
  end.

(** The three events before the loop: banner, [mkdir], output directory. *)
Definition prologue (root : string) : list event :=
  [EPrint (SectionBanner "Building Python Packages for Distribution");
   EMkdir dist_dir;
   EPrint (OutputDirectory (String.concat "/" (root :: dist_dir)))].

(** ** Further readings of a log *)

(** The child processes started: command line and working directory. *)
Definition spawns (t : list event) : list (list string * path) :=
  omap (λ e, match e with ESpawn cmd cwd => Some (cmd, cwd) | _ => None end) t.

(** The messages of the progress lines of lines 91 and 94, and the raw
    texts of line 95. *)
Definition success_lines (t : list event) : list string :=
  omap (λ e, match e with EPrint (SuccessLine msg) => Some msg | _ => None end) t.

Definition error_lines (t : list event) : list string :=
  omap (λ e, match e with EPrint (ErrorLine msg) => Some msg | _ => None end) t.

Definition outputs (t : list event) : list string :=
  omap (λ e, match e with EPrint (Output text) => Some text | _ => None end) t.

(** The package lists as the summary shows them (lines 101-109). *)
Definition built_headers (t : list event) : list nat :=
  omap (λ e, match e with EPrint (BuiltHeader n) => Some n | _ => None end) t.

Definition built_items (t : list event) : list string :=
  omap (λ e, match e with EPrint (BuiltItem p) => Some p | _ => None end) t.

Definition failed_headers (t : list event) : list nat :=
  omap (λ e, match e with EPrint (FailedHeader n) => Some n | _ => None end) t.

Definition failed_items (t : list event) : list string :=
  omap (λ e, match e with EPrint (FailedItem p) => Some p | _ => None end) t.

(** The lines that belong to the summary of lines 98-121 and to nothing
    before it. *)
Definition summary_only (l : line) : bool :=
  match l with
  | SectionBanner msg => bool_decide (msg = "Build Summary")
  | BuiltHeader _ | BuiltItem _ | FailedHeader _ | FailedItem _
  | WheelHeader | WheelItem _ _ | InstallHeader | InstallCommand _ => true
  | _ => false
  end.

Definition summary_part (t : list event) : list line :=
  omap (λ e, match e with
             | EPrint l => if summary_only l then Some l else None
             | _ => None
             end) t.



(** The build tool exits with a status other than 0 whenever it is started
    in the directory of [package]. *)
Definition tool_fails (Π : platform) (package : string) : Prop :=
  ∀ h cmd m, ∃ rc out err after,
    spawn Π h cmd (python_dir </> package) m = Exited rc out err after ∧ rc ≠ 0%Z.

(** The same machine with another build tool. *)
Definition with_spawn (Π : platform)
    (sp : list event → list string → path → filesystem → proc) : platform :=
  Platform (workspace_root_str Π) (sys_executable Π) (new_dir_size Π) sp
    (rmtree_fault Π) (mkdir_fault Π) (stat_fault Π).

(** The build tool of the demonstration, except that it refuses to start
    in a directory that still has a [build] directory. *)
Definition picky_spawn (h : list event) (cmd : list string) (cwd : path)
    (m : filesystem) : proc :=
  if bool_decide (is_Some (m !! (cwd </> "build")))
  then NotStarted PermissionError "build"
  else demo_spawn h cmd cwd m.

(** The demonstration workspace with a regular file in the way of the
    output directory. *)
Definition blocked_fs : filesystem := <[ [] </> "dist" := file_node 7 ]> bare_fs.

(** * Properties *)

(** ** The monad *)

Ltac unfold_monad :=
  unfold mbind, M_bind, mret, M_ret, try_except, print,
    print_section, print_success, print_error, path_exists, record in *.

Lemma bind_ok {A B} (m : M A) (k : A → M B) s a s' :
  m s = Ok a s' → (m ≫= k) s = k a s'.
Proof. unfold mbind, M_bind. by intros ->. Qed.

Lemma ok_final {A} (r : result A) (a : A) :
  returned r = Some a → r = Ok a (final r).
Proof. destruct r; simpl; congruence. Qed.

(** ** The file system *)

Lemma remove_tree_lookup p m q :
  remove_tree p m !! q = if decide (p `prefix_of` q) then None else m !! q.
Proof.
  unfold remove_tree. rewrite map_lookup_filter.
  destruct (m !! q) as [n|] eqn:E; simpl; [|by case_decide].
  unfold below; simpl. case_guard; case_decide; simpl; try done; tauto.
Qed.

Lemma remove_some_lookup p gone m q :
  remove_some p gone m !! q =
    if decide (p `prefix_of` q ∧ gone q = true) then None else m !! q.
Proof.
  unfold remove_some. rewrite map_lookup_filter.
  destruct (m !! q) as [n|] eqn:E; simpl; [|by case_decide].
  unfold below; simpl. case_guard; case_decide; simpl; try done; tauto.
Qed.

Lemma remove_tree_outside p m q :
  ¬ p `prefix_of` q → remove_tree p m !! q = m !! q.
Proof. intros. rewrite remove_tree_lookup. by case_decide. Qed.

Lemma remove_some_outside p gone m q :
  ¬ p `prefix_of` q → remove_some p gone m !! q = m !! q.
Proof. intros. rewrite remove_some_lookup. case_decide; intuition. Qed.

(** ** Traces *)

Lemma examined_app t1 t2 : examined (t1 ++ t2) = examined t1 ++ examined t2.
Proof. apply omap_app. Qed.

Lemma started_app t1 t2 : started (t1 ++ t2) = started t1 ++ started t2.
Proof. apply omap_app. Qed.

Lemma skipped_app t1 t2 : skipped (t1 ++ t2) = skipped t1 ++ skipped t2.
Proof. apply omap_app. Qed.

Lemma removals_app t1 t2 : removals (t1 ++ t2) = removals t1 ++ removals t2.
Proof. apply omap_app. Qed.

Lemma artifact_lines_app t1 t2 :
  artifact_lines (t1 ++ t2) = artifact_lines t1 ++ artifact_lines t2.
Proof. apply omap_app. Qed.

Lemma rmtree_events (rs : list path) :
  examined (ERmtree <$> rs) = [] ∧ started (ERmtree <$> rs) = [] ∧
  skipped (ERmtree <$> rs) = [] ∧ removals (ERmtree <$> rs) = rs ∧
  artifact_lines (ERmtree <$> rs) = [].
Proof.
  induction rs as [|r rs (IH1 & IH2 & IH3 & IH4 & IH5)]; [done|].
  split_and!; try done.
  change (removals (ERmtree <$> r :: rs)) with (r :: removals (ERmtree <$> rs)).
  by rewrite IH4.
Qed.

Ltac trace_simpl :=
  repeat first
    [ rewrite examined_app | rewrite started_app | rewrite skipped_app
    | rewrite removals_app | rewrite artifact_lines_app
    | rewrite (proj1 (rmtree_events _))
    | rewrite (proj1 (proj2 (rmtree_events _)))
    | rewrite (proj1 (proj2 (proj2 (rmtree_events _))))
    | rewrite (proj1 (proj2 (proj2 (proj2 (rmtree_events _)))))
    | rewrite (proj2 (proj2 (proj2 (proj2 (rmtree_events _))))) ];
  simpl.

Lemma step_examined cmd package built failed t o :
  step_trace cmd package built failed t o → examined t = [package].
Proof.
  intros H. inversion H; subst; try done;
    change (EPrint (Building package) :: ?l) with ([EPrint (Building package)] ++ l);
    by trace_simpl.
Qed.

Lemma step_started cmd package built failed t built' failed' :
  step_trace cmd package built failed t (Some (built', failed')) →
  (started t = [] ∧ skipped t = [package] ∧ removals t = [] ∧
   built' = built ∧ failed' = failed) ∨
  (started t = [package] ∧ skipped t = [] ∧
   removals t `sublist_of` cleanup_paths package ∧
   ((built' = built ++ [package] ∧ failed' = failed) ∨
    (built' = built ∧ failed' = failed ++ [package]))).
Proof.
  intros H. inversion H; subst; [left; done|right..];
    change (EPrint (Building package) :: ?l) with ([EPrint (Building package)] ++ l);
    trace_simpl; rewrite ?app_nil_r; split_and!; auto.
Qed.

(** What a completed loop leaves behind, read off its events. *)
Lemma loop_trace_lists cmd pkgs built failed t built' failed' :
  loop_trace cmd pkgs built failed t built' failed' →
  examined t = pkgs ∧
  pkgs ≡ₚ started t ++ skipped t ∧
  (∀ p, p ∈ removals t → ∃ pkg, pkg ∈ started t ∧ p ∈ cleanup_paths pkg) ∧
  ∃ bs fs,
    built' = built ++ bs ∧ failed' = failed ++ fs ∧
    bs `sublist_of` pkgs ∧ fs `sublist_of` pkgs ∧
    started t ≡ₚ bs ++ fs.
Proof.
  induction 1 as [built failed
                 |package pkgs built failed t1 built1 failed1 t2 built2 failed2
                    Hstep Hloop (IHex & IHperm & IHrm & bs & fs & -> & -> & Hbs & Hfs & Hst)].
  { split_and!; try done.
    - by intros p ?%elem_of_nil.
    - exists [], []. by rewrite !app_nil_r. }
  pose proof (step_examined _ _ _ _ _ _ Hstep) as Hex.
  apply step_started in Hstep
    as [(Hs & Hk & Hr & -> & ->)|(Hs & Hk & Hr & [[-> ->]|[-> ->]])];
    rewrite examined_app, started_app, skipped_app, removals_app, Hex, IHex, Hs, Hk;
    simpl.
  - split_and!; try done.
    + rewrite IHperm. by rewrite Permutation_middle.
    + rewrite Hr. simpl. done.
    + exists bs, fs. split_and!; try done; by apply sublist_cons.
  - split_and!; try done.
    + by rewrite IHperm.
    + intros p [Hp|Hp]%elem_of_app.
      * exists package. split; [left|]. by eapply elem_of_sublist.
      * destruct (IHrm p Hp) as (pkg & ? & ?). exists pkg. split; [by right|done].
    + exists (package :: bs), fs. rewrite <- !app_assoc. simpl.
      split_and!; try done; [by apply sublist_skip|by apply sublist_cons|].
      by rewrite Hst.
  - split_and!; try done.
    + by rewrite IHperm.
    + intros p [Hp|Hp]%elem_of_app.
      * exists package. split; [left|]. by eapply elem_of_sublist.
      * destruct (IHrm p Hp) as (pkg & ? & ?). exists pkg. split; [by right|done].
    + exists bs, (package :: fs). rewrite <- !app_assoc. simpl.
      split_and!; try done; [by apply sublist_cons|by apply sublist_skip|].
      rewrite Hst. by rewrite Permutation_middle.
Qed.

(** The events of a completed loop come in blocks, one per candidate, in
    the order of the list. *)
Lemma loop_trace_blocks cmd pkgs built failed t built' failed' :
  loop_trace cmd pkgs built failed t built' failed' →
  ∃ ts, t = concat ts ∧
        Forall2 (λ package ti, ∃ b f lists,
                   step_trace cmd package b f ti (Some lists)) pkgs ts.
Proof.
  induction 1 as [|package pkgs built failed t1 built1 failed1 t2 built2 failed2
                    Hstep _ (ts & -> & IH)].
  - by exists [].
  - exists (t1 :: ts). split; [done|]. constructor; [|done]. by eauto.
Qed.


Lemma step_artifact_lines cmd package built failed t o :
  step_trace cmd package built failed t o → artifact_lines t = [].
Proof.
  intros H. inversion H; subst; try done;
    change (EPrint (Building package) :: ?l) with ([EPrint (Building package)] ++ l);
    by trace_simpl.
Qed.

Lemma loop_artifact_lines cmd pkgs built failed t built' failed' :
  loop_trace cmd pkgs built failed t built' failed' → artifact_lines t = [].
Proof.
  induction 1 as [|?????????? Hstep _ IH]; [done|].
  by rewrite artifact_lines_app, (step_artifact_lines _ _ _ _ _ _ Hstep), IH.
Qed.

Lemma omap_all_none {A B} (f : A → option B) (l : list A) :
  Forall (λ x, f x = None) l → omap f l = [].
Proof. induction 1 as [|x l Hx _ IH]; [done|]. simpl. by rewrite Hx. Qed.

Lemma summary_lines_kind root built failed m :
  Forall (λ l, summary_line l = true) (summary_lines root built failed m).
Proof.
  unfold summary_lines, wheel_lines.
  apply Forall_cons; split; [done|].
  repeat apply Forall_app_2.
  - case_bool_decide; [done|]. apply Forall_cons; split; [done|].
    by apply Forall_fmap, Forall_true.
  - case_bool_decide; [done|]. apply Forall_cons; split; [done|].
    by apply Forall_fmap, Forall_true.
  - destruct (m !! dist_dir); [|done]. case_bool_decide; [done|].
    apply Forall_cons; split; [done|]. apply Forall_app_2.
    + by apply Forall_fmap, Forall_true.
    + by repeat constructor.
Qed.

Lemma summary_events root built failed m :
  examined (EPrint <$> summary_lines root built failed m) = [] ∧
  started (EPrint <$> summary_lines root built failed m) = [] ∧
  skipped (EPrint <$> summary_lines root built failed m) = [] ∧
  removals (EPrint <$> summary_lines root built failed m) = [].
Proof.
  pose proof (summary_lines_kind root built failed m) as H.
  split_and!; apply omap_all_none, Forall_fmap;
    (eapply Forall_impl; [exact H|]); by intros [].
Qed.

Lemma summary_line_events (ls : list line) :
  Forall (λ l, summary_line l = true) ls →
  examined (EPrint <$> ls) = [] ∧ started (EPrint <$> ls) = [] ∧
  skipped (EPrint <$> ls) = [] ∧ removals (EPrint <$> ls) = [].
Proof.
  intros H.
  split_and!; apply omap_all_none, Forall_fmap;
    (eapply Forall_impl; [exact H|]); by intros [].
Qed.

Lemma summary_prefix_kind root built failed m (ls : list line) :
  ls `prefix_of` summary_lines root built failed m →
  Forall (λ l, summary_line l = true) ls.
Proof.
  intros [k Hk]. pose proof (summary_lines_kind root built failed m) as H.
  rewrite Hk in H. by apply Forall_app in H as [H _].
Qed.

Lemma artifact_lines_all (ls : list line) :
  Forall (λ l, artifact_line l = true) ls → artifact_lines (EPrint <$> ls) = ls.
Proof.
  induction 1 as [|l ls Hl _ IH]; [done|].
  unfold artifact_lines in *. simpl. rewrite Hl. simpl. by f_equal.
Qed.

Lemma artifact_lines_none (ls : list line) :
  Forall (λ l, artifact_line l = false) ls → artifact_lines (EPrint <$> ls) = [].
Proof.
  induction 1 as [|l ls Hl _ IH]; [done|].
  unfold artifact_lines in *. simpl. by rewrite Hl.
Qed.

(** The artifact section, spelled out. *)
Lemma wheel_lines_names root m :
  wheel_lines root m =
    if bool_decide (whl_names dist_dir m = []) then []
    else WheelHeader ::
         ((λ name, WheelItem name
                     (default 0%N (st_size <$> m !! (dist_dir </> name))))
            <$> merge_sort String.le (whl_names dist_dir m)) ++
         [InstallHeader; InstallCommand (String.concat "/" (root :: dist_dir))].
Proof.
  unfold wheel_lines. destruct (m !! dist_dir) as [n|] eqn:Hd; [done|].
  rewrite bool_decide_eq_true_2; [done|].
  unfold whl_names, dir_entries. by rewrite Hd.
Qed.

Lemma summary_artifact_lines root built failed m :
  artifact_lines (EPrint <$> summary_lines root built failed m) = wheel_lines root m.
Proof.
  unfold summary_lines.
  set (B := if bool_decide (built = []) then _ else _).
  set (F := if bool_decide (failed = []) then _ else _).
  change (artifact_lines (EPrint <$> SectionBanner "Build Summary" :: ?l))
    with (artifact_lines (EPrint <$> l)).
  rewrite !fmap_app, !artifact_lines_app.
  rewrite (artifact_lines_none B), (artifact_lines_none F), artifact_lines_all;
    [done|..]; subst B F.
  - rewrite wheel_lines_names. case_bool_decide; [done|].
    apply Forall_cons; split; [done|]. apply Forall_app_2.
    + by apply Forall_fmap, Forall_true.
    + by repeat constructor.
  - case_bool_decide; [done|]. apply Forall_cons; split; [done|].
    by apply Forall_fmap, Forall_true.
  - case_bool_decide; [done|]. apply Forall_cons; split; [done|].
    by apply Forall_fmap, Forall_true.
Qed.

(** ** Strings *)

Lemma append_cons c (a b : string) : String c a +:+ b = String c (a +:+ b).
Proof. done. Qed.

Lemma substring_all s : String.substring 0 (String.length s) s = s.
Proof. induction s as [|c s IH]; cbn; [done|]. by rewrite IH. Qed.

Lemma substring_split s : ∀ k, (k ≤ String.length s)%nat →
  String.substring 0 k s +:+ String.substring k (String.length s - k) s = s.
Proof.
  induction s as [|c s IH]; intros [|k] Hk; cbn in *; try done; try lia.
  - by rewrite substring_all.
  - rewrite append_cons. f_equal. apply IH. lia.
Qed.

Lemma substring_append_r pre suf :
  String.substring (String.length pre) (String.length suf) (pre +:+ suf) = suf.
Proof.
  induction pre as [|c pre IH]; [apply substring_all|].
  rewrite append_cons. by cbn.
Qed.

Lemma length_append (a b : string) :
  String.length (a +:+ b) = (String.length a + String.length b)%nat.
Proof.
  induction a as [|c a IH]; [done|]. rewrite append_cons. cbn. by rewrite IH.
Qed.

Lemma ends_with_spec suffix name :
  ends_with suffix name = true ↔ ∃ stem, name = stem +:+ suffix.
Proof.
  unfold ends_with. rewrite andb_true_iff, Nat.leb_le, String.eqb_eq. split.
  - intros [Hle Hsub].
    exists (String.substring 0 (String.length name - String.length suffix) name).
    rewrite <- (substring_split name (String.length name - String.length suffix))
      at 1 by lia.
    f_equal. rewrite <- Hsub at 3. f_equal. lia.
  - intros [stem ->]. rewrite length_append. split; [lia|].
    replace (String.length stem + String.length suffix - String.length suffix)
      with (String.length stem) by lia.
    apply substring_append_r.
Qed.

(** Whatever algorithm sorts the names, the result is [sorted_names]. *)
Lemma sorted_names_unique (names l : list string) :
  StronglySorted String.le l → l ≡ₚ names → l = sorted_names names.
Proof.
  intros Hs Hp. apply (StronglySorted_unique String.le); [done| |].
  - apply StronglySorted_merge_sort; apply _.
  - unfold sorted_names. by rewrite merge_sort_Permutation.
Qed.

Lemma NoDup_dir_entries (dir : path) (m : filesystem) : NoDup (dir_entries dir m).
Proof.
  unfold dir_entries. destruct (m !! dir) as [n|]; [|constructor].
  destruct (is_dir n); [|constructor].
  pose proof (NoDup_fst_map_to_list m) as Hnd.
  induction (map_to_list m) as [|[k v] l IH]; [constructor|].
  simpl in Hnd. apply NoDup_cons in Hnd as [Hk Hnd].
  simpl. destruct (entry_of dir (k, v)) as [name|] eqn:He; [|by apply IH].
  apply NoDup_cons. split; [|by apply IH].
  intros ([k' v'] & Hin & He')%list_elem_of_omap.
  unfold entry_of in He, He'. simpl in *.
  destruct (last k); [|done]. destruct (last k'); [|done].
  repeat case_bool_decide; simplify_eq.
  apply Hk. apply list_elem_of_fmap. by exists (dir </> name, v').
Qed.

Section Run.

Variable Π : platform.

(** *** The build isolator *)

Lemma rmtree_final p s :
  log (final (rmtree Π p s)) = log s ++ [ERmtree p] ∧
  fs (final (rmtree Π p s)) ⊆ fs s ∧
  ∀ q, ¬ p `prefix_of` q → fs (final (rmtree Π p s)) !! q = fs s !! q.
Proof.
  unfold rmtree.
  destruct (fs s !! p) as [n|]; [destruct (is_dir n)|]; simpl; try by auto.
  destruct (rmtree_fault Π p (fs s)) as [[[kind filename] gone]|]; simpl.
  - split_and!; [done|apply map_filter_subseteq|].
    intros q Hq. by apply remove_some_outside.
  - split_and!; [done|apply map_filter_subseteq|].
    intros q Hq. by apply remove_tree_outside.
Qed.

Lemma clean_dirs_cons package_dir c cs s :
  clean_dirs Π package_dir (c :: cs) s =
    match (if bool_decide (is_Some (fs s !! (package_dir </> c)))
           then rmtree Π (package_dir </> c) s else Ok tt s) with
    | Ok _ s1 => clean_dirs Π package_dir cs s1
    | Raise e s1 => Raise e s1
    end.
Proof.
  unfold clean_dirs. simpl. unfold_monad.
  by destruct (bool_decide (is_Some (fs s !! (package_dir </> c)))).
Qed.

Lemma clean_dirs_final package_dir cs s :
  ∃ rs, rs `sublist_of` ((λ c, package_dir </> c) <$> cs) ∧
    log (final (clean_dirs Π package_dir cs s)) = log s ++ (ERmtree <$> rs) ∧
    fs (final (clean_dirs Π package_dir cs s)) ⊆ fs s ∧
    ∀ q, (∀ c, c ∈ cs → ¬ (package_dir </> c) `prefix_of` q) →
         fs (final (clean_dirs Π package_dir cs s)) !! q = fs s !! q.
Proof.
  revert s. induction cs as [|c cs IH]; intros s.
  - exists []. simpl. rewrite app_nil_r. by split_and!.
  - rewrite clean_dirs_cons.
    destruct (bool_decide (is_Some (fs s !! (package_dir </> c)))).
    + destruct (rmtree_final (package_dir </> c) s) as (Hl & Hsub & Hout).
      destruct (rmtree Π (package_dir </> c) s) as [[] s1|e s1]; simpl in *.
      * destruct (IH s1) as (rs & Hrs & Hlog & Hfs & Hfr).
        exists ((package_dir </> c) :: rs). (split_and!).
        -- by apply sublist_skip.
        -- rewrite Hlog, Hl. simpl. by rewrite <- app_assoc.
        -- etrans; [apply Hfs|done].
        -- intros q Hq. rewrite Hfr.
           ++ apply Hout. apply Hq. left.
           ++ intros c' Hc'. apply Hq. by right.
      * exists [package_dir </> c]. split_and!; try done.
        -- apply sublist_skip, sublist_nil_l.
        -- intros q Hq. apply Hout, Hq. left.
    + destruct (IH s) as (rs & Hrs & Hlog & Hfs & Hfr).
      exists rs. split_and!; try done.
      * by apply sublist_cons.
      * intros q Hq. apply Hfr. intros c' Hc'. apply Hq. by right.
Qed.

(** *** One pass of the loop *)

Lemma eligible_spec m package :
  eligible m package = true ↔
    is_Some (m !! (python_dir </> package)) ∧
    is_Some (m !! (python_dir </> package </> "pyproject.toml")).
Proof.
  unfold eligible.
  rewrite negb_true_iff, orb_false_iff, !negb_false_iff, !bool_decide_eq_true.
  done.
Qed.

Lemma build_package_eq python_cmd package built failed s :
  build_package Π python_cmd package (built, failed) s =
    if eligible (fs s) package then
      let package_dir := python_dir </> package in
      let cmd := build_cmd Π python_cmd in
      match clean_previous_builds Π package_dir package
              (record (EPrint (Building package)) s) with
      | Raise e s1 => Raise e s1
      | Ok _ s1 =>
          match spawn Π (log s1) cmd package_dir (fs s1) with
          | NotStarted kind filename =>
              Raise (OSError kind filename) (record (ESpawn cmd package_dir) s1)
          | Garbled rc after =>
              Raise UnicodeDecodeError
                    (State after (log s1 ++ [ESpawn cmd package_dir]))
          | Exited rc out err after =>
              if (rc =? 0)%Z then
                Ok (built ++ [package], failed)
                   (State after
                      (log s1 ++
                       [ESpawn cmd package_dir;
                        EPrint (SuccessLine (package +:+ " built successfully"))]))
              else
                Ok (built, failed ++ [package])
                   (State after
                      (log s1 ++
                       [ESpawn cmd package_dir;
                        EPrint (ErrorLine (package +:+ " build failed:"));
                        EPrint (Output err)]))
          end
      end
    else Ok (built, failed) (record (EPrint (Skipping package)) s).
Proof.
  unfold build_package, eligible. unfold_monad.
  destruct (bool_decide (is_Some (fs s !! (python_dir </> package))));
    destruct (bool_decide
                (is_Some (fs s !! (python_dir </> package </> "pyproject.toml"))));
    simpl; try done.
  destruct (clean_previous_builds _ _ _ _) as [[] s1|e s1]; [|done].
  unfold run_command, subprocess_run. unfold_monad. simpl.
  destruct (spawn _ _ _ _ _) as [rc out err after|rc after|kind filename];
    [|done..].
  destruct (rc =? 0)%Z; simpl; by rewrite <- !app_assoc.
Qed.

Lemma build_package_trace python_cmd package built failed s :
  ∃ t,
    log (final (build_package Π python_cmd package (built, failed) s)) = log s ++ t ∧
    step_trace (build_cmd Π python_cmd) package built failed t
      (returned (build_package Π python_cmd package (built, failed) s)).
Proof.
  rewrite build_package_eq.
  destruct (eligible (fs s) package).
  2:{ exists [EPrint (Skipping package)]. split; [done|constructor]. }
  cbv zeta. unfold clean_previous_builds.
  destruct (clean_dirs_final (python_dir </> package) (cleanup_dirs package)
              (record (EPrint (Building package)) s)) as (rs & Hrs & Hlog & _).
  fold (cleanup_paths package) in Hrs.
  destruct (clean_dirs _ _ _ _) as [[] s1|e s1]; simpl in Hlog.
  - destruct (spawn _ _ _ _ _) as [rc out err after|rc after|kind filename].
    + destruct (rc =? 0)%Z; simpl; rewrite Hlog, <- !app_assoc; simpl;
        eexists; (split; [reflexivity|]); by constructor.
    + simpl. rewrite Hlog, <- !app_assoc. simpl.
      eexists; (split; [reflexivity|]); by constructor.
    + simpl. rewrite Hlog, <- !app_assoc. simpl.
      eexists; (split; [reflexivity|]); by constructor.
  - simpl. rewrite Hlog, <- !app_assoc. simpl.
    eexists; (split; [reflexivity|]); by constructor.
Qed.

(** *** The loop over the candidates *)

Lemma for_each_acc_cons {A V} (x : A) l (body : A → V → M V) v s :
  for_each_acc (x :: l) body v s =
    match body x v s with
    | Ok v' s' => for_each_acc l body v' s'
    | Raise e s' => Raise e s'
    end.
Proof. done. Qed.

Lemma loop_returns python_cmd pkgs built failed s built' failed' s' :
  for_each_acc pkgs (build_package Π python_cmd) (built, failed) s
    = Ok (built', failed') s' →
  ∃ t, log s' = log s ++ t ∧
       loop_trace (build_cmd Π python_cmd) pkgs built failed t built' failed'.
Proof.
  revert built failed s.
  induction pkgs as [|package pkgs IH]; intros built failed s H.
  - simpl in H. injection H as -> -> ->.
    exists []. rewrite app_nil_r. split; [done|constructor].
  - rewrite for_each_acc_cons in H.
    destruct (build_package_trace python_cmd package built failed s)
      as (t1 & Hlog1 & Hstep).
    destruct (build_package _ _ _ _ _) as [[built1 failed1] s1|e s1]; [|done].
    simpl in Hlog1, Hstep.
    destruct (IH _ _ _ H) as (t2 & Hlog2 & Hloop).
    exists (t1 ++ t2). split.
    + by rewrite Hlog2, Hlog1, app_assoc.
    + by econstructor.
Qed.

(** When the loop is left by an exception, the candidates examined so far
    are an initial segment of the list. *)
Lemma loop_final_examined python_cmd pkgs lists s :
  ∃ t, log (final (for_each_acc pkgs (build_package Π python_cmd) lists s))
         = log s ++ t ∧
       examined t `prefix_of` pkgs.
Proof.
  revert lists s.
  induction pkgs as [|package pkgs IH]; intros [built failed] s.
  - exists []. simpl. by rewrite app_nil_r.
  - rewrite for_each_acc_cons.
    destruct (build_package_trace python_cmd package built failed s)
      as (t1 & Hlog1 & Hstep).
    pose proof (step_examined _ _ _ _ _ _ Hstep) as Hex.
    destruct (build_package _ _ _ _ _) as [lists1 s1|e s1].
    + destruct (IH lists1 s1) as (t2 & Hlog2 & Hpre).
      exists (t1 ++ t2). simpl in Hlog1. split.
      * by rewrite Hlog2, Hlog1, app_assoc.
      * unfold examined in *. rewrite omap_app, Hex. simpl.
        by apply prefix_cons.
    + exists t1. split; [done|]. rewrite Hex. apply prefix_cons, prefix_nil.
Qed.

(** *** The artifact listing *)

Lemma elem_of_dir_entries dir m name :
  name ∈ dir_entries dir m ↔
    (∃ n, m !! dir = Some n ∧ is_dir n = true) ∧ is_Some (m !! (dir </> name)).
Proof.
  unfold dir_entries. split.
  - destruct (m !! dir) as [n|] eqn:Hd; [|by intros ?%elem_of_nil].
    destruct (is_dir n) eqn:Hn; [|by intros ?%elem_of_nil].
    intros ([k v] & Hkv & He)%list_elem_of_omap. split; [by eauto|].
    unfold entry_of in He. simpl in He.
    destruct (last k) as [name'|]; [|done].
    case_bool_decide; [|done]. simplify_eq.
    exists v. by apply elem_of_map_to_list in Hkv.
  - intros ((n & -> & ->) & [v Hv]).
    apply list_elem_of_omap. exists (dir </> name, v). split.
    + by apply elem_of_map_to_list.
    + unfold entry_of, path_div. simpl. rewrite last_snoc.
      by rewrite bool_decide_eq_true_2.
Qed.

Lemma elem_of_whl_names dir m name :
  name ∈ whl_names dir m ↔
    (∃ n, m !! dir = Some n ∧ is_dir n = true) ∧
    is_Some (m !! (dir </> name)) ∧ is_whl name = true.
Proof.
  unfold whl_names. rewrite list_elem_of_filter, elem_of_dir_entries. tauto.
Qed.

Lemma for_each_print {A} (l : list A) (g : A → line) s :
  for_each l (λ x, print (g x)) s
    = Ok tt (State (fs s) (log s ++ (EPrint <$> (g <$> l)))).
Proof.
  revert s. induction l as [|x l IH]; intros s.
  - simpl. rewrite app_nil_r. by destruct s.
  - simpl. erewrite bind_ok; [|reflexivity].
    rewrite IH. simpl. by rewrite <- app_assoc.
Qed.

Lemma stat_size_ok p s n :
  fs s !! p = Some n → stat_fault Π p (fs s) = None →
  stat_size Π p s = Ok (st_size n) s.
Proof. intros Hn Hf. unfold stat_size. by rewrite Hn, Hf. Qed.

Lemma for_each_cons {A} (x : A) l (body : A → M unit) s :
  for_each (x :: l) body s =
    match body x s with
    | Ok _ s' => for_each l body s'
    | Raise e s' => Raise e s'
    end.
Proof. done. Qed.

Lemma stat_size_cases p s :
  (∃ n, fs s !! p = Some n ∧ stat_size Π p s = Ok (st_size n) s) ∨
  (∃ kind, stat_size Π p s = Raise (OSError kind (path_str Π p)) s).
Proof.
  unfold stat_size. destruct (fs s !! p) as [n|]; [|by eauto].
  destruct (stat_fault Π p (fs s)) as [kind|]; by eauto.
Qed.

Lemma for_each_stat_print (names : list string) s :
  (∀ name, name ∈ names → is_Some (fs s !! (dist_dir </> name))) →
  (∀ name, name ∈ names → stat_fault Π (dist_dir </> name) (fs s) = None) →
  for_each names (λ name,
      size ← stat_size Π (dist_dir </> name);
      print (WheelItem name size)) s
    = Ok tt (State (fs s)
               (log s ++
                (EPrint <$>
                 ((λ name, WheelItem name
                     (default 0%N (st_size <$> fs s !! (dist_dir </> name))))
                   <$> names)))).
Proof.
  revert s. induction names as [|name names IH]; intros s Hex Hst.
  - simpl. rewrite app_nil_r. by destruct s.
  - destruct (Hex name) as [n Hn]; [left|]. simpl.
    erewrite bind_ok;
      [|unfold mbind, M_bind;
        rewrite (stat_size_ok _ s n Hn (Hst name (list_elem_of_here _ _)));
        reflexivity].
    rewrite IH; simpl.
    + rewrite Hn. simpl. by rewrite <- app_assoc.
    + intros name' H'. apply Hex. by right.
    + intros name' H'. apply Hst. by right.
Qed.

(** The loop of lines 116-118, however it ends: the wheels before the
    first one whose [stat] fails have their line. *)
Lemma for_each_stat_print_final (names : list string) s :
  let r := for_each names (λ name,
             size ← stat_size Π (dist_dir </> name);
             print (WheelItem name size)) s in
  ∃ shown,
    shown `prefix_of` names ∧
    final r = State (fs s)
                (log s ++
                 (EPrint <$>
                  ((λ name, WheelItem name
                      (default 0%N (st_size <$> fs s !! (dist_dir </> name))))
                    <$> shown))) ∧
    (is_Some (returned r) → shown = names) ∧
    (∀ e, raised r = Some e → ∃ kind filename, e = OSError kind filename).
Proof.
  revert s. induction names as [|name names IH]; intros s r; subst r.
  - exists []. simpl. rewrite app_nil_r. split_and!; try done. by destruct s.
  - rewrite for_each_cons.
    change ((stat_size Π (dist_dir </> name) ≫= λ size, print (WheelItem name size)) s)
      with (match stat_size Π (dist_dir </> name) s with
            | Ok size s' => print (WheelItem name size) s'
            | Raise e s' => Raise e s'
            end).
    destruct (stat_size_cases (dist_dir </> name) s)
      as [(n & Hn & ->)|(kind & ->)].
    + unfold print at 1.
      destruct (IH (record (EPrint (WheelItem name (st_size n))) s))
        as (shown & Hpre & Hfin & Hret & Hraise).
      exists (name :: shown). split_and!.
      * by apply prefix_cons.
      * rewrite Hfin. cbn [record fs log]. simpl. rewrite Hn. simpl.
        by rewrite <- app_assoc.
      * intros Hsome. by rewrite Hret.
      * done.
    + exists []. simpl. rewrite app_nil_r. split_and!.
      * apply prefix_nil.
      * by destruct s.
      * by intros [? [=]].
      * intros e [= <-]. by eexists _, _.
Qed.

Lemma print_summary_eq built failed s :
  wheels_readable Π (fs s) →
  print_summary Π built failed s
    = Ok tt (State (fs s)
               (log s ++
                (EPrint <$> summary_lines (workspace_root_str Π) built failed (fs s)))).
Proof.
  intros Hread.
  unfold print_summary, summary_lines, wheel_lines.
  unfold print_section.
  rewrite (bind_ok _ _ s tt (record (EPrint (SectionBanner "Build Summary")) s));
    [|done].
  set (s0 := record _ s).
  assert (∀ (l : list string) hd (g : string → line) (s1 : state),
    (if bool_decide (l = []) then mret ()
     else print (hd (length l));; for_each l (λ pkg, print (g pkg))) s1
    = Ok tt (State (fs s1)
         (log s1 ++ (EPrint <$> (if bool_decide (l = []) then []
                                 else hd (length l) :: (g <$> l)))))) as Hlist.
  { intros l hd g s1. case_bool_decide.
    - simpl. rewrite app_nil_r. by destruct s1.
    - erewrite bind_ok; [|reflexivity].
      rewrite for_each_print. simpl. by rewrite <- app_assoc. }
  erewrite bind_ok; [|apply Hlist].
  erewrite bind_ok; [|apply Hlist].
  unfold path_exists, glob_whl. unfold mbind at 1, M_bind at 1. simpl.
  destruct (fs s !! dist_dir) as [nd|] eqn:Hd.
  2:{ rewrite bool_decide_eq_false_2 by (by intros []).
      unfold mret, M_ret. simpl. f_equal. f_equal.
      rewrite <- !app_assoc, !fmap_app. simpl. by rewrite app_nil_r. }
  rewrite bool_decide_eq_true_2 by eauto.
  unfold mbind at 1, M_bind at 1. simpl.
  case_bool_decide as Hw.
  { unfold mret, M_ret. simpl. f_equal. f_equal.
    rewrite <- !app_assoc, !fmap_app. simpl. by rewrite app_nil_r. }
  erewrite bind_ok; [|reflexivity].
  erewrite bind_ok.
  2:{ apply for_each_stat_print; intros name Hin; simpl;
        unfold sorted_names in Hin; rewrite merge_sort_Permutation in Hin.
      - by apply elem_of_whl_names in Hin as (_ & ? & _).
      - by apply Hread. }
  unfold_monad. simpl. f_equal. f_equal. unfold path_str, sorted_names.
  rewrite <- !app_assoc, !fmap_app. simpl.
  do 4 f_equal. change (list_fmap line event EPrint) with (fmap (M:=list) EPrint).
  by rewrite fmap_app.
Qed.

Lemma summary_lines_head root built failed m :
  summary_lines root built failed m = summary_head built failed ++ wheel_lines root m.
Proof. unfold summary_lines, summary_head. simpl. by rewrite <- app_assoc. Qed.

Lemma list_wheels_eq s :
  list_wheels Π s =
    match fs s !! dist_dir with
    | None => Ok tt s
    | Some _ =>
        if bool_decide (whl_names dist_dir (fs s) = []) then Ok tt s
        else
          match for_each (sorted_names (whl_names dist_dir (fs s)))
                  (λ name, size ← stat_size Π (dist_dir </> name);
                           print (WheelItem name size))
                  (record (EPrint WheelHeader) s) with
          | Ok _ s2 =>
              Ok tt (State (fs s2)
                       (log s2 ++ [EPrint InstallHeader;
                                   EPrint (InstallCommand (path_str Π dist_dir))]))
          | Raise e s2 => Raise e s2
          end
    end.
Proof.
  unfold list_wheels.
  erewrite bind_ok; [|reflexivity].
  destruct (fs s !! dist_dir) as [nd|] eqn:Hd.
  2:{ by rewrite (bool_decide_eq_false_2 (is_Some None)) by (by intros []). }
  rewrite (bool_decide_eq_true_2 (is_Some (Some nd))) by eauto.
  erewrite bind_ok; [|reflexivity].
  case_bool_decide as Hw; [done|].
  erewrite bind_ok; [|reflexivity].
  unfold mbind at 1, M_bind at 1.
  destruct (for_each _ _ _) as [[] s2|e s2]; [|done].
  unfold_monad. simpl. by rewrite <- app_assoc.
Qed.

(** Lines 112-121, however they end. *)
Lemma list_wheels_final s :
  ∃ ls,
    ls `prefix_of` wheel_lines (workspace_root_str Π) (fs s) ∧
    final (list_wheels Π s) = State (fs s) (log s ++ (EPrint <$> ls)) ∧
    (is_Some (returned (list_wheels Π s)) →
     ls = wheel_lines (workspace_root_str Π) (fs s)) ∧
    (∀ e, raised (list_wheels Π s) = Some e →
          ∃ kind filename, e = OSError kind filename).
Proof.
  rewrite list_wheels_eq. unfold wheel_lines.
  destruct (fs s !! dist_dir) as [nd|] eqn:Hd.
  2:{ exists []. simpl. rewrite app_nil_r. split_and!; try done. by destruct s. }
  case_bool_decide as Hw.
  { exists []. simpl. rewrite app_nil_r. split_and!; try done. by destruct s. }
  destruct (for_each_stat_print_final (sorted_names (whl_names dist_dir (fs s)))
              (record (EPrint WheelHeader) s))
    as (shown & [k Hk] & Hfin & Hret & Hraise).
  destruct (for_each _ _ _) as [[] s2|e s2]; cbn [final returned raised] in *.
  - rewrite Hret in * by eauto. subst s2.
    eexists. split; [reflexivity|]. split; [|done].
    cbn [record fs log]. f_equal. unfold sorted_names, path_str.
    rewrite fmap_cons, fmap_app, <- !app_assoc. done.
  - subst s2.
    exists (WheelHeader ::
            ((λ name, WheelItem name
                (default 0%N (st_size <$> fs s !! (dist_dir </> name)))) <$> shown)).
    split_and!; [|cbn [record fs log]; by rewrite fmap_cons, <- app_assoc|by intros [? [=]]|done].
    apply prefix_cons. unfold sorted_names in Hk. rewrite Hk, fmap_app.
    rewrite <- app_assoc. apply prefix_app_r. done.
Qed.

Lemma print_summary_wheels built failed s :
  print_summary Π built failed s
    = list_wheels Π (State (fs s) (log s ++ (EPrint <$> summary_head built failed))).
Proof.
  unfold print_summary, summary_head.
  unfold print_section.
  rewrite (bind_ok _ _ s tt (record (EPrint (SectionBanner "Build Summary")) s));
    [|done].
  assert (∀ (l : list string) hd (g : string → line) (s1 : state),
    (if bool_decide (l = []) then mret ()
     else print (hd (length l));; for_each l (λ pkg, print (g pkg))) s1
    = Ok tt (State (fs s1)
         (log s1 ++ (EPrint <$> (if bool_decide (l = []) then []
                                 else hd (length l) :: (g <$> l)))))) as Hlist.
  { intros l hd g s1. case_bool_decide.
    - simpl. rewrite app_nil_r. by destruct s1.
    - erewrite bind_ok; [|reflexivity].
      rewrite for_each_print. simpl. by rewrite <- app_assoc. }
  erewrite bind_ok; [|apply Hlist].
  erewrite bind_ok; [|apply Hlist].
  unfold list_wheels. cbn [record fs log]. f_equal. f_equal.
  by rewrite fmap_cons, fmap_app, <- !app_assoc.
Qed.

(** The summary, however it ends: the two package lists are always
    shown; of the artifact listing, what came before a [stat] that
    failed. *)
Lemma print_summary_final built failed s :
  ∃ ws,
    ws `prefix_of` wheel_lines (workspace_root_str Π) (fs s) ∧
    final (print_summary Π built failed s)
      = State (fs s) (log s ++ (EPrint <$> (summary_head built failed ++ ws))) ∧
    (is_Some (returned (print_summary Π built failed s)) →
     ws = wheel_lines (workspace_root_str Π) (fs s)) ∧
    (∀ e, raised (print_summary Π built failed s) = Some e →
          ∃ kind filename, e = OSError kind filename).
Proof.
  rewrite print_summary_wheels.
  destruct (list_wheels_final
              (State (fs s) (log s ++ (EPrint <$> summary_head built failed))))
    as (ws & Hpre & Hfin & Hret & Hraise).
  cbn [fs log] in *.
  exists ws. split_and!; [done| |done|done].
  by rewrite Hfin, fmap_app, app_assoc.
Qed.

(** The same, over the lines of the whole summary. *)
Lemma print_summary_prefix built failed s :
  ∃ ls,
    ls `prefix_of` summary_lines (workspace_root_str Π) built failed (fs s) ∧
    summary_head built failed `prefix_of` ls ∧
    final (print_summary Π built failed s)
      = State (fs s) (log s ++ (EPrint <$> ls)) ∧
    (is_Some (returned (print_summary Π built failed s)) →
     ls = summary_lines (workspace_root_str Π) built failed (fs s)) ∧
    (∀ e, raised (print_summary Π built failed s) = Some e →
          ∃ kind filename, e = OSError kind filename).
Proof.
  destruct (print_summary_final built failed s) as (ws & Hpre & Hfin & Hret & Hraise).
  exists (summary_head built failed ++ ws). rewrite summary_lines_head.
  split_and!; [by apply prefix_app|by apply prefix_app_r|done| |done].
  intros Hsome. by rewrite Hret.
Qed.

(** A summary that returns has printed all of its lines. *)
Lemma print_summary_returns built failed s s' :
  print_summary Π built failed s = Ok tt s' →
  s' = State (fs s)
         (log s ++
          (EPrint <$> summary_lines (workspace_root_str Π) built failed (fs s))).
Proof.
  intros H.
  destruct (print_summary_final built failed s) as (ws & _ & Hfin & Hret & _).
  rewrite H in Hfin, Hret. cbn [final returned] in *.
  rewrite Hret in Hfin by eauto. by rewrite summary_lines_head.
Qed.

(** *** Creating the output directory *)

Lemma mkdir_from_cons target made c rest s :
  mkdir_from Π target made (c :: rest) s =
    match fs s !! (made </> c) with
    | None =>
        match mkdir_fault Π (made </> c) (fs s) with
        | Some kind => Raise (OSError kind (path_str Π (made </> c))) s
        | None =>
            mkdir_from Π target (made </> c) rest
              (State (<[made </> c := Node true (new_dir_size Π)]> (fs s)) (log s))
        end
    | Some n =>
        if is_dir n then mkdir_from Π target (made </> c) rest s
        else match rest with
             | [] => Raise (OSError FileExistsError (path_str Π target)) s
             | _ => Raise (OSError NotADirectoryError (path_str Π target)) s
             end
    end.
Proof. done. Qed.

Lemma path_div_app made c rest : made ++ c :: rest = (made </> c) ++ rest.
Proof. unfold path_div. by rewrite <- app_assoc. Qed.

Lemma mkdir_from_final target made rest s :
  log (final (mkdir_from Π target made rest s)) = log s ∧
  fs s ⊆ fs (final (mkdir_from Π target made rest s)) ∧
  ∀ q, ¬ q `prefix_of` made ++ rest →
       fs (final (mkdir_from Π target made rest s)) !! q = fs s !! q.
Proof.
  revert made s. induction rest as [|c rest IH]; intros made s; [done|].
  rewrite mkdir_from_cons, path_div_app.
  destruct (fs s !! (made </> c)) as [n|] eqn:Hp.
  - destruct (is_dir n); [apply IH|]. by destruct rest.
  - destruct (mkdir_fault Π (made </> c) (fs s)) as [kind|]; [done|].
    destruct (IH (made </> c)
                (State (<[made </> c := Node true (new_dir_size Π)]> (fs s)) (log s)))
      as (Hl & Hsub & Hfr).
    split_and!; [done| |].
    + etrans; [|apply Hsub]. simpl. by apply insert_subseteq.
    + intros q Hq. rewrite Hfr by done. simpl.
      apply lookup_insert_ne. intros <-. apply Hq. by apply prefix_app_r.
Qed.

Lemma mkdir_from_is_dir target made c rest s s' :
  mkdir_from Π target made (c :: rest) s = Ok tt s' →
  ∃ n, fs s' !! (made ++ c :: rest) = Some n ∧ is_dir n = true.
Proof.
  revert made c s. induction rest as [|c' rest IH]; intros made c s;
    rewrite mkdir_from_cons, path_div_app.
  - simpl. rewrite app_nil_r.
    destruct (fs s !! (made </> c)) as [n|] eqn:Hp.
    + destruct (is_dir n) eqn:Hn; [|done]. intros [= <-]. eauto.
    + destruct (mkdir_fault Π (made </> c) (fs s)) as [kind|]; [done|].
      intros [= <-]. simpl. rewrite lookup_insert_eq. eauto.
  - destruct (fs s !! (made </> c)) as [n|];
      [destruct (is_dir n); [|done]
      |destruct (mkdir_fault Π (made </> c) (fs s)) as [kind|]; [done|]];
      apply IH.
Qed.

Lemma mkdir_from_raise target made rest s e s' :
  mkdir_from Π target made rest s = Raise e s' →
  ∃ kind filename, e = OSError kind filename.
Proof.
  revert made s. induction rest as [|c rest IH]; intros made s; [done|].
  rewrite mkdir_from_cons.
  destruct (fs s !! (made </> c)) as [n|].
  - destruct (is_dir n); [apply IH|]. destruct rest; intros [= <- <-]; by eauto.
  - destruct (mkdir_fault Π (made </> c) (fs s)) as [kind|]; [|apply IH].
    intros [= <- <-]. by eauto.
Qed.

Lemma mkdir_dist_eq s :
  mkdir_parents_exist_ok Π dist_dir s
    = mkdir_from Π dist_dir [] ["dist"; "python"] (record (EMkdir dist_dir) s).
Proof. done. Qed.

(** Line 60 returns exactly when nothing is in its way. *)
Lemma mkdir_dist_cases s :
  (dist_dir_creatable Π (fs s) = true ∧
   ∃ s', mkdir_parents_exist_ok Π dist_dir s = Ok tt s') ∨
  (dist_dir_creatable Π (fs s) = false ∧
   ∃ e s', mkdir_parents_exist_ok Π dist_dir s = Raise e s').
Proof.
  rewrite mkdir_dist_eq. unfold dist_dir_creatable, can_make, with_dir.
  rewrite mkdir_from_cons. cbn [record fs log].
  destruct (fs s !! ([] </> "dist")) as [n1|] eqn:H1.
  - destruct (is_dir n1); [|right; by eauto].
    rewrite mkdir_from_cons. cbn [record fs log].
    change ([] </> "dist" </> "python") with dist_dir.
    destruct (fs s !! dist_dir) as [n2|].
    + destruct (is_dir n2); [left|right]; by eauto.
    + destruct (mkdir_fault Π dist_dir (fs s)); [right|left]; by eauto.
  - destruct (mkdir_fault Π ([] </> "dist") (fs s)); [right; by eauto|].
    rewrite mkdir_from_cons. cbn [record fs log].
    change ([] </> "dist" </> "python") with dist_dir.
    destruct (_ !! dist_dir) as [n2|].
    + destruct (is_dir n2); [left|right]; by eauto.
    + destruct (mkdir_fault Π dist_dir _); [right|left]; by eauto.
Qed.

(** The candidates' directories and the output directory are apart. *)
Lemma python_dir_apart q : python_dir `prefix_of` q → ¬ q `prefix_of` dist_dir.
Proof.
  intros [k ->] [k' Hk']. by vm_compute in Hk'.
Qed.

Lemma eligible_mkdir s0 s package :
  fs (final (mkdir_parents_exist_ok Π dist_dir s0)) = fs s →
  eligible (fs s) package = eligible (fs s0) package.
Proof.
  intros <-. unfold mkdir_parents_exist_ok, eligible.
  destruct (mkdir_from_final dist_dir [] dist_dir (record (EMkdir dist_dir) s0))
    as (_ & _ & Hfr).
  rewrite !Hfr; [done| |];
    apply python_dir_apart; unfold path_div; rewrite <- ?app_assoc;
    by apply prefix_app_r.
Qed.

(** *** The whole run *)

Lemma run_eq pkgs s :
  run Π pkgs s =
    match mkdir_parents_exist_ok Π dist_dir
            (record (EPrint (SectionBanner "Building Python Packages for Distribution")) s)
    with
    | Raise e s1 => Raise e s1
    | Ok _ s1 =>
        match for_each_acc pkgs (build_package Π (chosen_python Π (fs s))) ([], [])
                (record (EPrint (OutputDirectory (path_str Π dist_dir))) s1)
        with
        | Raise e s2 => Raise e s2
        | Ok (built, failed) s2 =>
            match print_summary Π built failed s2 with
            | Raise e s3 => Raise e s3
            | Ok _ s3 =>
                Ok (RunResult built failed
                      (if bool_decide (failed = []) then 0 else 1)) s3
            end
        end
    end.
Proof.
  unfold run, chosen_python.
  unfold path_exists at 1. unfold mbind at 1, M_bind at 1.
  unfold print_section at 1. erewrite bind_ok; [|reflexivity].
  unfold mbind at 1, M_bind at 1.
  destruct (mkdir_parents_exist_ok _ _ _) as [[] s1|e s1]; [|done].
  erewrite bind_ok; [|reflexivity].
  unfold mbind at 1, M_bind at 1.
  destruct (for_each_acc _ _ _ _) as [[built failed] s2|e s2]; [|done].
  unfold mbind at 1, M_bind at 1.
  by destruct (print_summary _ _ _ _) as [[] s3|e s3].
Qed.

(** A run that returns: the output directory was made, the loop ran to its
    end, and the summary was printed over the file system the loop left. *)
Lemma run_returns pkgs m r s' :
  run Π pkgs (start m) = Ok r s' →
  ∃ t,
    loop_trace (build_cmd Π (chosen_python Π m)) pkgs [] [] t
      (successes r) (failures r) ∧
    log s' = prologue (workspace_root_str Π) ++ t ++
             (EPrint <$> summary_lines (workspace_root_str Π)
                           (successes r) (failures r) (fs s')) ∧
    exit_signal r = (if bool_decide (failures r = []) then 0 else 1)%Z.
Proof.
  rewrite run_eq. unfold mkdir_parents_exist_ok.
  pose proof (mkdir_from_final dist_dir [] dist_dir
    (record (EMkdir dist_dir)
       (record (EPrint (SectionBanner "Building Python Packages for Distribution"))
          (start m)))) as (Hlog & _).
  destruct (mkdir_from _ _ _ _ _) as [[] s1|e s1]; [|done].
  destruct (for_each_acc _ _ _ _) as [[built failed] s2|e s2] eqn:Hloop; [|done].
  destruct (print_summary _ _ _ _) as [[] s3|e s3] eqn:Hsum; [|done].
  apply print_summary_returns in Hsum as ->.
  intros [= <- <-]. simpl.
  apply loop_returns in Hloop as (t & Hlog2 & Hloop).
  exists t. split_and!; [done| |done].
  rewrite Hlog2. simpl in *. rewrite Hlog. simpl. by rewrite <- ?app_assoc.
Qed.

Lemma loop_all_skipped python_cmd pkgs lists s :
  (∀ p, p ∈ pkgs → eligible (fs s) p = false) →
  for_each_acc pkgs (build_package Π python_cmd) lists s
    = Ok lists (State (fs s) (log s ++ (EPrint <$> (Skipping <$> pkgs)))).
Proof.
  revert s. induction pkgs as [|p pkgs IH]; intros s Hall.
  - simpl. rewrite app_nil_r. by destruct s.
  - rewrite for_each_acc_cons. destruct lists as [built failed].
    rewrite build_package_eq, Hall by left.
    rewrite IH; simpl.
    + by rewrite <- app_assoc.
    + intros p' Hp'. apply Hall. by right.
Qed.

Lemma run_loop_start pkgs m :
  returned (mkdir_parents_exist_ok Π dist_dir
              (record (EPrint (SectionBanner "Building Python Packages for Distribution"))
                 (start m))) = Some tt →
  run Π pkgs (start m) =
    match for_each_acc pkgs (build_package Π (chosen_python Π m)) ([], [])
            (loop_start Π m) with
    | Raise e s2 => Raise e s2
    | Ok (built, failed) s2 =>
        match print_summary Π built failed s2 with
        | Raise e s3 => Raise e s3
        | Ok _ s3 =>
            Ok (RunResult built failed
                  (if bool_decide (failed = []) then 0 else 1)) s3
        end
    end.
Proof.
  rewrite run_eq. unfold loop_start.
  by destruct (mkdir_parents_exist_ok _ _ _) as [[] s1|e s1].
Qed.

Lemma mkdir_dist_ok m s :
  fs s = m → dist_dir_creatable Π m = true →
  returned (mkdir_parents_exist_ok Π dist_dir s) = Some tt.
Proof.
  intros <- Hd.
  destruct (mkdir_dist_cases s) as [(_ & s' & ->)|(Hno & _)]; [done|congruence].
Qed.

End Run.

Section RunFacts.

Variable Π : platform.

Lemma prologue_events root :
  examined (prologue root) = [] ∧ started (prologue root) = [] ∧
  skipped (prologue root) = [] ∧ removals (prologue root) = [] ∧
  artifact_lines (prologue root) = [].
Proof. done. Qed.

(** The projections of the log of a run that returned are those of its loop. *)
Lemma run_lists pkgs m r s' :
  run Π pkgs (start m) = Ok r s' →
  examined (log s') = pkgs ∧
  pkgs ≡ₚ started (log s') ++ skipped (log s') ∧
  (∀ p, p ∈ removals (log s') →
        ∃ pkg, pkg ∈ started (log s') ∧ p ∈ cleanup_paths pkg) ∧
  successes r `sublist_of` pkgs ∧ failures r `sublist_of` pkgs ∧
  started (log s') ≡ₚ successes r ++ failures r.
Proof.
  intros (t & Hloop & -> & _)%run_returns.
  apply loop_trace_lists in Hloop
    as (Hex & Hperm & Hrm & bs & fs & Hb & Hf & Hbs & Hfs & Hst).
  simpl in Hb, Hf. subst.
  destruct (summary_events (workspace_root_str Π) (successes r) (failures r) (fs s'))
    as (E1 & E2 & E3 & E4).
  rewrite !examined_app, !started_app, !skipped_app, !removals_app.
  rewrite E1, E2, E3, E4, !app_nil_r. simpl.
  by split_and!.
Qed.

(** However a run ends, the candidates it examined are an initial segment
    of the list, in its order. *)
Lemma run_final_examined pkgs m :
  examined (log (final (run Π pkgs (start m)))) `prefix_of` pkgs.
Proof.
  rewrite run_eq. unfold mkdir_parents_exist_ok.
  pose proof (mkdir_from_final Π dist_dir [] dist_dir
    (record (EMkdir dist_dir)
       (record (EPrint (SectionBanner "Building Python Packages for Distribution"))
          (start m)))) as (Hlog & _).
  destruct (mkdir_from _ _ _ _ _) as [[] s1|e s1]; simpl in Hlog.
  2:{ simpl. rewrite Hlog. apply prefix_nil. }
  destruct (loop_final_examined Π (chosen_python Π m) pkgs ([], [])
              (record (EPrint (OutputDirectory (path_str Π dist_dir))) s1))
    as (t & Hlog2 & Hpre).
  destruct (for_each_acc _ _ _ _) as [[built failed] s2|e s2];
    cbn [final log fs record] in *.
  2:{ by rewrite Hlog2, Hlog, ?examined_app. }
  destruct (print_summary_prefix Π built failed s2) as (ls & Hpre' & _ & Hfin & _).
  assert (log (final (match print_summary Π built failed s2 with
                      | Ok _ s3 =>
                          Ok (RunResult built failed
                                (if bool_decide (failed = []) then 0 else 1)) s3
                      | Raise e s3 => Raise e s3
                      end)) = log s2 ++ (EPrint <$> ls)) as ->.
  { destruct (print_summary _ _ _ _); cbn [final] in *; by rewrite Hfin. }
  apply summary_prefix_kind, summary_line_events in Hpre' as (Hex & _).
  rewrite Hlog2, Hlog, !examined_app, Hex, app_nil_r. done.
Qed.

Lemma package_dir_inj p pkg c q :
  (python_dir </> p) `prefix_of` q → (python_dir </> pkg </> c) `prefix_of` q →
  p = pkg.
Proof.
  intros [k1 ->] [k2 H]. unfold python_dir, path_div in H. simpl in H.
  by simplify_eq.
Qed.

Lemma cleanup_paths_inside package p :
  p ∈ cleanup_paths package → ∃ c, c ∈ cleanup_dirs package ∧
                                   p = python_dir </> package </> c.
Proof.
  unfold cleanup_paths. intros (c & -> & Hc)%list_elem_of_fmap. eauto.
Qed.

Lemma output_dir_apart package c q :
  (python_dir </> package </> c) `prefix_of` q → ¬ dist_dir `prefix_of` q.
Proof.
  intros [k1 ->] [k2 H]. unfold python_dir, dist_dir, path_div in H. simpl in H.
  by simplify_eq.
Qed.

Lemma clean_dirs_removed package_dir cs s s' :
  clean_dirs Π package_dir cs s = Ok tt s' →
  ∀ c, c ∈ cs → fs s' !! (package_dir </> c) = None.
Proof.
  revert s. induction cs as [|c cs IH]; intros s H c' Hc'.
  { by apply elem_of_nil in Hc'. }
  rewrite clean_dirs_cons in H.
  destruct (clean_dirs_final Π package_dir cs s) as (rs0 & _ & _ & Hsub0 & _).
  case_bool_decide as Hex.
  - destruct (rmtree Π (package_dir </> c) s) as [[] s1|e s1] eqn:Hrm; [|done].
    apply elem_of_cons in Hc' as [->|Hc']; [|by eapply IH].
    destruct (clean_dirs_final Π package_dir cs s1) as (rs1 & _ & _ & Hsub & _).
    rewrite H in Hsub. simpl in Hsub.
    eapply lookup_weaken_None; [|exact Hsub].
    unfold rmtree in Hrm.
    destruct (fs s !! (package_dir </> c)) as [n|]; [|done].
    destruct (is_dir n); [|done].
    destruct (rmtree_fault Π (package_dir </> c) (fs s)) as [[[] ?]|]; [done|].
    injection Hrm as <-. simpl. rewrite remove_tree_lookup.
    by case_decide.
  - apply elem_of_cons in Hc' as [->|Hc']; [|by eapply IH].
    rewrite H in Hsub0. simpl in Hsub0.
    eapply lookup_weaken_None; [|exact Hsub0].
    by apply eq_None_not_Some.
Qed.

Lemma clean_dirs_absent package_dir cs s :
  (∀ c, c ∈ cs → fs s !! (package_dir </> c) = None) →
  clean_dirs Π package_dir cs s = Ok tt s.
Proof.
  induction cs as [|c cs IH]; intros Habs; [done|].
  rewrite clean_dirs_cons.
  rewrite bool_decide_eq_false_2.
  - apply IH. intros c' Hc'. apply Habs. by right.
  - rewrite Habs by left. by intros [].
Qed.

Lemma for_each_acc_app {A V} (l1 l2 : list A) (body : A → V → M V) v s :
  for_each_acc (l1 ++ l2) body v s =
    match for_each_acc l1 body v s with
    | Ok v' s' => for_each_acc l2 body v' s'
    | Raise e s' => Raise e s'
    end.
Proof.
  revert v s. induction l1 as [|x l1 IH]; intros v s; [done|].
  rewrite <- app_comm_cons, !for_each_acc_cons.
  destruct (body x v s) as [v' s'|e s']; [apply IH|done].
Qed.

(** An exception of [shutil.rmtree] is an [OSError]: the one the operating
    system gave for the entry that could not be removed, or the one for a
    target that is not a directory.  The call is the last event. *)
Lemma rmtree_raise p s e s' :
  rmtree Π p s = Raise e s' →
  last (log s') = Some (ERmtree p) ∧
  ∃ kind filename,
    e = OSError kind filename ∧
    ((∃ gone, rmtree_fault Π p (fs s) = Some (kind, filename, gone)) ∨
     filename = path_str Π p).
Proof.
  unfold rmtree.
  destruct (fs s !! p) as [n|]; [destruct (is_dir n)|];
    [destruct (rmtree_fault Π p (fs s)) as [[[kind filename] gone]|]|..];
    intros [= <- <-]; cbn [record log]; rewrite last_snoc; (split; [done|]);
    eexists _, _; (split; [done|]); eauto.
Qed.

Lemma clean_dirs_raise package_dir cs s e s' :
  clean_dirs Π package_dir cs s = Raise e s' →
  ∃ c kind filename,
    c ∈ cs ∧ e = OSError kind filename ∧
    last (log s') = Some (ERmtree (package_dir </> c)) ∧
    ((∃ m' gone,
        rmtree_fault Π (package_dir </> c) m' = Some (kind, filename, gone)) ∨
     filename = path_str Π (package_dir </> c)).
Proof.
  revert s. induction cs as [|c cs IH]; intros s; [done|].
  rewrite clean_dirs_cons. case_bool_decide.
  - destruct (rmtree Π (package_dir </> c) s) as [[] s1|e1 s1] eqn:Hrm.
    + intros (c' & kind & filename & ? & -> & ? & ?)%IH.
      exists c', kind, filename. split; [by right|done].
    + intros [= <- <-].
      apply rmtree_raise in Hrm as (Hlast & kind & filename & -> & Hwhy).
      exists c, kind, filename. split_and!; [left|done|done|].
      destruct Hwhy as [[gone Hf]| ->]; [left|right]; by eauto.
  - intros (c' & kind & filename & ? & -> & ? & ?)%IH.
    exists c', kind, filename. split; [by right|done].
Qed.

Lemma log_loop_start m :
  log (loop_start Π m) = prologue (workspace_root_str Π).
Proof.
  unfold loop_start, mkdir_parents_exist_ok. cbn [record log].
  destruct (mkdir_from_final Π dist_dir [] dist_dir
    (record (EMkdir dist_dir)
       (record (EPrint (SectionBanner "Building Python Packages for Distribution"))
          (start m)))) as (Hl & _).
  unfold record in *. cbn [log fs] in *. by rewrite Hl.
Qed.

(** The run as the loop sees it, when line 60 succeeds. *)
Lemma run_raise_in_loop pkgs m e s2 :
  dist_dir_creatable Π m = true →
  for_each_acc pkgs (build_package Π (chosen_python Π m)) ([], []) (loop_start Π m)
    = Raise e s2 →
  run Π pkgs (start m) = Raise e s2.
Proof.
  intros Hd Hloop. rewrite run_loop_start by (by eapply mkdir_dist_ok).
  by rewrite Hloop.
Qed.

(** *** Eligibility over the run *)

Lemma egg_info_not_descriptor (a : string) : a +:+ ".egg-info" ≠ "pyproject.toml".
Proof.
  do 15 (destruct a as [|? a]; [by simplify_eq/=|]). by simplify_eq/=.
Qed.

Lemma cleanup_not_descriptor package c :
  c ∈ cleanup_dirs package → c ≠ "pyproject.toml".
Proof.
  unfold cleanup_dirs.
  intros [->|[->|[->|[->|[]%elem_of_nil]%elem_of_cons]%elem_of_cons]%elem_of_cons]%elem_of_cons;
    try done.
  apply egg_info_not_descriptor.
Qed.

Lemma eligible_clean package p s :
  eligible (fs (final (clean_previous_builds Π (python_dir </> package) package s))) p
    = eligible (fs s) p.
Proof.
  unfold clean_previous_builds, eligible.
  destruct (clean_dirs_final Π (python_dir </> package) (cleanup_dirs package) s)
    as (rs & _ & _ & _ & Hfr).
  rewrite !Hfr; [done|..]; intros c Hc [k Hk];
    unfold python_dir, path_div in Hk; simpl in Hk; simplify_eq.
  by eapply cleanup_not_descriptor.
Qed.

Lemma loop_started_eligible python_cmd pkgs lists s :
  tool_keeps_descriptors Π →
  ∃ t, log (final (for_each_acc pkgs (build_package Π python_cmd) lists s))
         = log s ++ t ∧
       (is_Some (returned (for_each_acc pkgs (build_package Π python_cmd) lists s)) →
        started t = filter (λ p, eligible (fs s) p = true) pkgs).
Proof.
  intros Hkeep. revert lists s.
  induction pkgs as [|package pkgs IH]; intros [built failed] s.
  { exists []. by rewrite app_nil_r. }
  rewrite for_each_acc_cons, build_package_eq, filter_cons.
  destruct (eligible (fs s) package) eqn:He.
  2:{ destruct (IH (built, failed) (record (EPrint (Skipping package)) s))
        as (t & Hlog & Hst).
      exists (EPrint (Skipping package) :: t). split.
      - rewrite Hlog. simpl. by rewrite <- app_assoc.
      - intros Hret. rewrite decide_False by done. by apply Hst. }
  cbv zeta. rewrite decide_True by done.
  pose proof (λ p, eligible_clean package p (record (EPrint (Building package)) s))
    as Hel.
  unfold clean_previous_builds in *.
  destruct (clean_dirs_final Π (python_dir </> package) (cleanup_dirs package)
              (record (EPrint (Building package)) s)) as (rs & _ & Hlog1 & _).
  destruct (clean_dirs _ _ _ _) as [[] s1|e s1]; simpl in Hlog1, Hel.
  2:{ eexists. split; [simpl; rewrite Hlog1, <- app_assoc; done|]. by intros []. }
  destruct (spawn _ _ _ _ _) as [rc out err after|rc after|kind filename] eqn:Hsp.
  2,3:
    (eexists; split; [simpl; rewrite Hlog1, <- !app_assoc; done|]; by intros []).
  assert (∀ p, eligible after p = eligible (fs s) p) as Hafter.
  { intros p. rewrite <- Hel. eapply Hkeep. by rewrite Hsp. }
  destruct (rc =? 0)%Z.
  - destruct (IH (built ++ [package], failed)
                (State after
                   (log s1 ++
                    [ESpawn (build_cmd Π python_cmd) (python_dir </> package);
                     EPrint (SuccessLine (package +:+ " built successfully"))])))
      as (t & Hlog & Hst).
    eexists. split.
    + rewrite Hlog. simpl. rewrite Hlog1, <- !app_assoc. simpl. done.
    + intros Hret. change (EPrint (Building package) :: ?l)
        with ([EPrint (Building package)] ++ l).
      trace_simpl. f_equal. rewrite (Hst Hret). simpl.
      apply list_filter_iff. intros p. by rewrite Hafter.
  - destruct (IH (built, failed ++ [package])
                (State after
                   (log s1 ++
                    [ESpawn (build_cmd Π python_cmd) (python_dir </> package);
                     EPrint (ErrorLine (package +:+ " build failed:"));
                     EPrint (Output err)])))
      as (t & Hlog & Hst).
    eexists. split.
    + rewrite Hlog. simpl. rewrite Hlog1, <- !app_assoc. simpl. done.
    + intros Hret. change (EPrint (Building package) :: ?l)
        with ([EPrint (Building package)] ++ l).
      trace_simpl. f_equal. rewrite (Hst Hret). simpl.
      apply list_filter_iff. intros p. by rewrite Hafter.
Qed.

Lemma run_started_eligible pkgs m r s' :
  run Π pkgs (start m) = Ok r s' →
  tool_keeps_descriptors Π →
  started (log s') = filter (λ p, eligible m p = true) pkgs.
Proof.
  rewrite run_eq. intros Hrun Hkeep.
  pose proof (λ s p, eligible_mkdir Π
    (record (EPrint (SectionBanner "Building Python Packages for Distribution"))
       (start m)) s p) as Hel.
  unfold mkdir_parents_exist_ok in *.
  pose proof (mkdir_from_final Π dist_dir [] dist_dir
    (record (EMkdir dist_dir)
       (record (EPrint (SectionBanner "Building Python Packages for Distribution"))
          (start m)))) as (Hlog1 & _).
  destruct (mkdir_from _ _ _ _ _) as [[] s1|e s1]; [|done].
  simpl in Hlog1.
  destruct (loop_started_eligible (chosen_python Π (fs (start m))) pkgs ([], [])
              (record (EPrint (OutputDirectory (path_str Π dist_dir))) s1) Hkeep)
    as (t & Hlog2 & Hst).
  destruct (for_each_acc _ _ _ _) as [[built failed] s2|e s2]; [|done].
  assert (log s' = log s2 ++
    (EPrint <$> summary_lines (workspace_root_str Π) built failed (fs s2))) as ->.
  { destruct (print_summary _ _ _ _) as [[] s3|e s3] eqn:Hsum; [|done].
    apply print_summary_returns in Hsum as ->. injection Hrun as _ <-.
    reflexivity. }
  cbn [final log fs record returned] in Hlog2, Hst |- *.
  rewrite Hlog2, Hlog1, !started_app.
  rewrite (proj1 (proj2 (summary_events _ _ _ _))), app_nil_r.
  rewrite Hst by eauto. cbn [fs record]. simpl started.
  apply list_filter_iff. intros p. by rewrite (Hel s1 p).
Qed.



(** The candidates examined when the loop has returned over [before]. *)
Lemma examined_before before m lists s :
  for_each_acc before (build_package Π (chosen_python Π m)) ([], []) (loop_start Π m)
    = Ok lists s →
  examined (log s) = before.
Proof.
  destruct lists as [built failed].
  intros (t & -> & Hloop)%loop_returns.
  apply loop_trace_lists in Hloop as (Hex & _).
  by rewrite log_loop_start, examined_app, Hex.
Qed.

(** What the loop does to the shared output directory is what the build
    tool does to it. *)
Lemma clean_keeps_output package s q :
  dist_dir `prefix_of` q →
  fs (final (clean_previous_builds Π (python_dir </> package) package s)) !! q
    = fs s !! q.
Proof.
  intros Hq. unfold clean_previous_builds.
  destruct (clean_dirs_final Π (python_dir </> package) (cleanup_dirs package) s)
    as (rs & _ & _ & _ & Hfr).
  apply Hfr. intros c _ Hc. by eapply output_dir_apart.
Qed.

Lemma loop_keeps_output python_cmd pkgs lists s q :
  dist_dir `prefix_of` q → tool_keeps Π q →
  fs (final (for_each_acc pkgs (build_package Π python_cmd) lists s)) !! q
    = fs s !! q.
Proof.
  intros Hq Hkeep. revert lists s.
  induction pkgs as [|package pkgs IH]; intros [built failed] s; [done|].
  rewrite for_each_acc_cons, build_package_eq.
  destruct (eligible (fs s) package).
  2:{ by rewrite IH. }
  cbv zeta.
  pose proof (clean_keeps_output package (record (EPrint (Building package)) s) q Hq)
    as Hclean.
  destruct (clean_previous_builds _ _ _ _) as [[] s1|e s1]; simpl in Hclean; [|done].
  destruct (spawn _ _ _ _ _) as [rc out err after|rc after|kind filename] eqn:Hsp;
    [| |done].
  - assert (after !! q = fs s1 !! q) as Hsp' by (eapply Hkeep; by rewrite Hsp).
    destruct (rc =? 0)%Z; rewrite IH; cbn [fs]; exact (eq_trans Hsp' Hclean).
  - assert (after !! q = fs s1 !! q) as Hsp' by (eapply Hkeep; by rewrite Hsp).
    exact (eq_trans Hsp' Hclean).
Qed.

Lemma run_final_fs pkgs m r s' :
  run Π pkgs (start m) = Ok r s' →
  ∃ s1 lists,
    mkdir_parents_exist_ok Π dist_dir
      (record (EPrint (SectionBanner "Building Python Packages for Distribution"))
         (start m)) = Ok tt s1 ∧
    fs s' = fs (final (for_each_acc pkgs (build_package Π (chosen_python Π m)) lists
                         (record (EPrint (OutputDirectory (path_str Π dist_dir))) s1))).
Proof.
  rewrite run_eq.
  destruct (mkdir_parents_exist_ok _ _ _) as [[] s1|e s1]; [|done].
  destruct (for_each_acc _ _ _ _) as [[built failed] s2|e s2] eqn:Hloop; [|done].
  destruct (print_summary _ _ _ _) as [[] s3|e s3] eqn:Hsum; [|done].
  apply print_summary_returns in Hsum as ->.
  intros [= <- <-]. exists s1, ([], []). split; [done|].
  change (fs (start m)) with m in Hloop. by rewrite Hloop.
Qed.

(** The loop of a run that returned. *)
Lemma run_returns_loop pkgs m r s' :
  run Π pkgs (start m) = Ok r s' →
  ∃ s2, for_each_acc pkgs (build_package Π (chosen_python Π m)) ([], [])
          (loop_start Π m) = Ok (successes r, failures r) s2.
Proof.
  rewrite run_eq. unfold loop_start.
  destruct (mkdir_parents_exist_ok _ _ _) as [[] s1|e s1]; [|done].
  cbn [final start fs].
  destruct (for_each_acc _ _ _ _) as [[built failed] s2|e s2]; [|done].
  destruct (print_summary _ _ _ _) as [[] s3|e s3]; [|done].
  intros [= <- <-]. by eexists.
Qed.

(** A package whose build tool exits with a status other than 0 is never
    appended to the built packages. *)
Lemma loop_failing_tool python_cmd pkgs built failed s built' failed' s' p :
  tool_fails Π p →
  for_each_acc pkgs (build_package Π python_cmd) (built, failed) s
    = Ok (built', failed') s' →
  p ∈ built' → p ∈ built.
Proof.
  intros Hfail. revert built failed s.
  induction pkgs as [|package pkgs IH]; intros built failed s.
  { by intros [= <- <- <-]. }
  rewrite for_each_acc_cons, build_package_eq.
  destruct (eligible (fs s) package); [|apply IH].
  cbv zeta.
  destruct (clean_previous_builds _ _ _ _) as [[] s1|e s1]; [|done].
  destruct (decide (package = p)) as [->|Hne].
  - destruct (Hfail (log s1) (build_cmd Π python_cmd) (fs s1))
      as (rc & out & err & after & -> & Hrc).
    apply Z.eqb_neq in Hrc. rewrite Hrc. apply IH.
  - destruct (spawn _ _ _ _ _) as [rc out err after|rc after|kind filename];
      [|done..].
    destruct (rc =? 0)%Z; [|apply IH].
    intros Hloop Hin. apply (IH _ _ _ Hloop) in Hin.
    apply elem_of_app in Hin as [Hin|Hin%list_elem_of_singleton]; [done|].
    by subst.
Qed.

(** An eligible candidate whose build tool exits with a status other than
    0 is among the failures of a run that returns. *)
Lemma run_failing_tool pkgs m r s' p :
  run Π pkgs (start m) = Ok r s' →
  tool_keeps_descriptors Π → tool_fails Π p →
  p ∈ pkgs → eligible m p = true →
  p ∈ failures r.
Proof.
  intros Hrun Hkeep Hfail Hp He.
  pose proof (run_started_eligible pkgs m r s' Hrun Hkeep) as Hst.
  pose proof Hrun as (_ & _ & _ & _ & _ & Hperm)%run_lists.
  pose proof Hrun as (s2 & Hloop)%run_returns_loop.
  assert (p ∈ successes r ++ failures r) as Hin.
  { rewrite <- Hperm, Hst. by apply list_elem_of_filter. }
  apply elem_of_app in Hin as [Hin|Hin]; [|done].
  apply (loop_failing_tool _ _ _ _ _ _ _ _ p Hfail Hloop) in Hin.
  by apply elem_of_nil in Hin.
Qed.

End RunFacts.

(** * The statements of the design document *)

(** C1.  [run_command] is documented to run a command and return its
    success status, and it does so for a build tool that exits with a
    status other than 0: the [CalledProcessError] becomes
    [(False, stderr)].  Its [except] clause names nothing else, so a child
    process that cannot be started is not folded into an outcome.  On the
    demonstration workspace with an interpreter that cannot be executed,
    [run_command] raises [FileNotFoundError] instead of returning
    [(False, diagnostic)]; the exception leaves the loop and [main], so
    the run has no result, [core] is in no list of failures, and [idp],
    the next candidate, is never examined.  On the same workspace the
    build of [idp] that exits with status 1 is folded as the claim
    says. *)
Lemma launch_failure_counterexample :
  spawn no_interpreter [] (build_cmd no_interpreter "/usr/bin/python3")
    (python_dir </> "core") demo_fs
    = NotStarted FileNotFoundError "/usr/bin/python3" ∧
  raised (run_command no_interpreter (build_cmd no_interpreter "/usr/bin/python3")
            (python_dir </> "core") (start demo_fs))
    = Some (OSError FileNotFoundError "/usr/bin/python3") ∧
  raised no_interpreter_run = Some (OSError FileNotFoundError "/usr/bin/python3") ∧
  ¬ (∃ r s', no_interpreter_run = Ok r s' ∧ "core" ∈ failures r) ∧
  examined (log (final no_interpreter_run)) = ["core"] ∧
  returned (run_command demo (build_cmd demo "/usr/bin/python3")
              (python_dir </> "idp") (start demo_fs))
    = Some (false, "missing dependency X").
Proof.
  split_and!; [done|by vm_compute|by vm_compute| |by vm_compute|by vm_compute].
  intros (r & s' & H & _).
  assert (returned no_interpreter_run = None) as Hn by (by vm_compute).
  by rewrite H in Hn.
Qed.

(** C2, as the script has it.  When [shutil.rmtree] raises while a package
    is being cleaned, nothing catches the [OSError]: it leaves the loop and
    [main] as [shutil.rmtree] raised it (the error of the entry that could
    not be removed, or that of a stale path that is not a directory).  The
    run ends in the very state in which the removal failed, the call of
    [shutil.rmtree] on one of the four stale directories being the last
    thing it did, with no result; the package was the last candidate
    examined, so it has no outcome and the candidates after it are not
    looked at. *)
Theorem removal_failure_aborts (Π : platform) (before : list string)
    (package : string) (rest : list string) (m : filesystem) :
  let python_cmd := chosen_python Π m in
  let r0 := for_each_acc before (build_package Π python_cmd) ([], [])
              (loop_start Π m) in
  let r_clean :=
    clean_previous_builds Π (python_dir </> package) package
      (record (EPrint (Building package)) (final r0)) in
  dist_dir_creatable Π m = true →
  is_Some (returned r0) →
  eligible (fs (final r0)) package = true →
  returned r_clean = None →
  ∃ kind filename c,
    c ∈ cleanup_dirs package ∧
    run Π (before ++ package :: rest) (start m)
      = Raise (OSError kind filename) (final r_clean) ∧
    last (log (final r_clean)) = Some (ERmtree (python_dir </> package </> c)) ∧
    ((∃ m' gone,
        rmtree_fault Π (python_dir </> package </> c) m'
          = Some (kind, filename, gone)) ∨
     filename = path_str Π (python_dir </> package </> c)) ∧
    examined (log (final r_clean)) = before ++ [package].
Proof.
  intros python_cmd r0 r_clean Hd [[built failed] Hr0] He Hclean.
  assert (r0 = Ok (built, failed) (final r0)) as Hr0' by (by apply ok_final).
  destruct r_clean as [[] s1|e s1] eqn:Hc; [done|].
  pose proof Hc as Hc'. unfold r_clean, clean_previous_builds in Hc'.
  apply clean_dirs_raise in Hc' as (c & kind & filename & Hin & -> & Hlast & Hwhy).
  exists kind, filename, c. split_and!; [done| |done|done|].
  - apply run_raise_in_loop; [done|].
    rewrite for_each_acc_app. fold python_cmd. fold r0. rewrite Hr0'.
    rewrite for_each_acc_cons, build_package_eq, He. cbv zeta.
    fold r_clean. by rewrite Hc.
  - simpl.
    destruct (clean_dirs_final Π (python_dir </> package) (cleanup_dirs package)
                (record (EPrint (Building package)) (final r0)))
      as (rs & _ & Hlog & _).
    unfold r_clean, clean_previous_builds in Hc. rewrite Hc in Hlog.
    simpl in Hlog. rewrite Hlog, !examined_app.
    rewrite (examined_before Π before m (built, failed) (final r0)) by done.
    by rewrite (proj1 (rmtree_events rs)), app_nil_r.
Qed.

(** C2 as stated fails: on the demonstration workspace, when [lib] in
    [core/build] may not be removed, the run raises [PermissionError];
    there is no run result for [core] to be a failure of, and [idp] is
    never examined. *)
Lemma removal_failure_counterexample :
  rmtree_fault denied (python_dir </> "core" </> "build") demo_fs ≠ None ∧
  raised denied_run = Some (OSError PermissionError "lib") ∧
  ¬ (∃ r s', denied_run = Ok r s' ∧ "core" ∈ failures r) ∧
  examined (log (final denied_run)) = ["core"].
Proof.
  split_and!; [by vm_compute|by vm_compute| |by vm_compute].
  intros (r & s' & H & _).
  assert (returned denied_run = None) as Hn by (by vm_compute).
  by rewrite H in Hn.
Qed.

Lemma removal_failure_aborts_witness :
  ∃ kind filename c,
    c ∈ cleanup_dirs "core" ∧
    run denied ([] ++ "core" :: ["idp"; "notification"]) (start demo_fs)
      = Raise (OSError kind filename)
              (final (clean_previous_builds denied (python_dir </> "core") "core"
                        (record (EPrint (Building "core")) (loop_start denied demo_fs)))) ∧
    last (log (final (clean_previous_builds denied (python_dir </> "core") "core"
                        (record (EPrint (Building "core")) (loop_start denied demo_fs)))))
      = Some (ERmtree (python_dir </> "core" </> c)) ∧
    ((∃ m' gone,
        rmtree_fault denied (python_dir </> "core" </> c) m'
          = Some (kind, filename, gone)) ∨
     filename = path_str denied (python_dir </> "core" </> c)) ∧
    examined (log (final (clean_previous_builds denied (python_dir </> "core") "core"
                        (record (EPrint (Building "core")) (loop_start denied demo_fs)))))
      = [] ++ ["core"].
Proof.
  apply (removal_failure_aborts denied [] "core" ["idp"; "notification"] demo_fs).
  - vm_compute. reflexivity.
  - exists ([], []). reflexivity.
  - vm_compute. reflexivity.
  - vm_compute. reflexivity.
Defined.

(** C3. The value [main] returns is 0 exactly when the list of failures is
    empty.  A run over candidates none of which has a build descriptor can
    only return both lists empty and the value 0, and it does return when
    line 60 has nothing in its way and the wheels of the output directory
    can be read for the summary.  A candidate that is eligible and whose
    build tool exits with a status other than 0 is among the failures of
    every run that returns, and the value is then not 0.  For the process
    as a whole: its status is 0 exactly when [main] returned with an empty
    list of failures, and it is not 0 when such a candidate is in the
    list. *)
Theorem exit_signal_iff_no_failures (Π : platform) (pkgs : list string)
    (m : filesystem) :
  (∀ r s', run Π pkgs (start m) = Ok r s' →
     (exit_signal r = 0%Z ↔ failures r = []) ∧
     (failures r ≠ [] → exit_signal r ≠ 0%Z)) ∧
  ((∀ p, p ∈ pkgs → eligible m p = false) →
     (∀ r s', run Π pkgs (start m) = Ok r s' → r = RunResult [] [] 0) ∧
     (dist_dir_creatable Π m = true → wheels_readable Π (fs (loop_start Π m)) →
      ∃ s', run Π pkgs (start m) = Ok (RunResult [] [] 0) s')) ∧
  (∀ p, p ∈ pkgs → eligible m p = true →
     tool_keeps_descriptors Π → tool_fails Π p →
     ∀ r s', run Π pkgs (start m) = Ok r s' →
       p ∈ failures r ∧ exit_signal r ≠ 0%Z) ∧
  (process_exit (main Π (start m)) = 0%Z ↔
     ∃ r s', run Π packages (start m) = Ok r s' ∧ failures r = []) ∧
  (∀ p, p ∈ packages → eligible m p = true →
     tool_keeps_descriptors Π → tool_fails Π p →
     process_exit (main Π (start m)) ≠ 0%Z).
Proof.
  assert (∀ r s', run Π pkgs (start m) = Ok r s' →
            (exit_signal r = 0%Z ↔ failures r = []) ∧
            (failures r ≠ [] → exit_signal r ≠ 0%Z)) as Hiff.
  { intros r s' (t & _ & _ & ->)%run_returns. case_bool_decide; split; done. }
  assert (process_exit (main Π (start m)) = 0%Z ↔
            ∃ r s', run Π packages (start m) = Ok r s' ∧ failures r = []) as Hexit.
  { unfold main. unfold mbind, M_bind.
    destruct (run Π packages (start m)) as [r s'|e s'] eqn:Hrun; simpl.
    + apply run_returns in Hrun as (t & _ & _ & Hex). rewrite Hex.
      case_bool_decide; split; try done; [by eauto|].
      by intros (r' & s'' & [= <- <-] & ?).
    + split; [done|]. by intros (? & ? & ? & _). }
  split_and!; [done| |..|done|].
  - intros Hall.
    assert (∀ p, p ∈ pkgs → eligible (fs (loop_start Π m)) p = false) as Hall'.
    { intros p Hp. unfold loop_start. simpl.
      erewrite eligible_mkdir; [|done]. simpl. by apply Hall. }
    split.
    + intros [bs fs0 code] s' Hrun.
      pose proof Hrun as (s2 & Hloop)%run_returns_loop.
      apply run_returns in Hrun as (_ & _ & _ & Hcode).
      rewrite loop_all_skipped in Hloop by done.
      cbn [successes failures exit_signal] in *. by simplify_eq.
    + intros Hd Hread.
      rewrite run_loop_start by (by eapply mkdir_dist_ok).
      rewrite loop_all_skipped by done.
      rewrite print_summary_eq by done. by eexists.
  - intros p Hp He Hkeep Hfail r s' Hrun.
    assert (p ∈ failures r) as Hin by (by eapply run_failing_tool).
    split; [done|]. apply (Hiff r s' Hrun). by intros Hnil; rewrite Hnil in Hin;
      apply elem_of_nil in Hin.
  - intros p Hp He Hkeep Hfail Hzero.
    apply Hexit in Hzero as (r & s' & Hrun & Hnil).
    assert (p ∈ failures r) as Hin by (by eapply run_failing_tool).
    rewrite Hnil in Hin. by apply elem_of_nil in Hin.
Qed.

Lemma demo_keeps_descriptors : tool_keeps_descriptors demo.
Proof.
  intros h cmd cwd m after p H. simpl in H. unfold demo_spawn in H.
  destruct (last cwd) as [pkg|]; [|done].
  case_bool_decide; simplify_eq/=; [done|].
  unfold eligible. by rewrite !lookup_insert_ne.
Qed.

Lemma demo_fails_idp : tool_fails demo "idp".
Proof.
  intros h cmd m. simpl. unfold demo_spawn.
  change (python_dir </> "idp") with (python_dir ++ ["idp"]).
  rewrite last_snoc. by eexists 1%Z, _, _, _.
Qed.

Lemma exit_signal_iff_no_failures_witness :
  (∃ s', run demo packages (start bare_fs) = Ok (RunResult [] [] 0) s') ∧
  process_exit (main demo (start bare_fs)) = 0%Z ∧
  process_exit (main demo (start demo_fs)) ≠ 0%Z.
Proof.
  pose proof (exit_signal_iff_no_failures demo packages bare_fs)
    as (_ & H2 & _ & H3 & _).
  pose proof (exit_signal_iff_no_failures demo packages demo_fs)
    as (_ & _ & _ & _ & H5).
  assert (∃ s', run demo packages (start bare_fs) = Ok (RunResult [] [] 0) s') as H.
  { apply H2.
    - intros p Hp. repeat (apply elem_of_cons in Hp as [->|Hp]; [by vm_compute|]).
      by apply elem_of_nil in Hp.
    - by vm_compute.
    - intros name _. reflexivity. }
  split; [exact H|]. split.
  - apply H3. destruct H as [s' H].
    exists (RunResult [] [] 0), s'. split; [exact H|reflexivity].
  - apply (H5 "idp").
    + apply (bool_decide_unpack _). vm_compute. exact I.
    + reflexivity.
    + exact demo_keeps_descriptors.
    + exact demo_fails_idp.
Defined.

(** C4. In a run that returns, every candidate that passed the test of
    line 72 was appended to exactly one of the two lists, once:
    [successes ++ failures] is a rearrangement of the candidates that were
    started, so the two lengths add up to their number; the candidates are
    the started ones together with the skipped ones; and when the candidate
    names are distinct, no name occurs twice across the two lists and no
    skipped candidate occurs in either.  When the build tool leaves package
    directories and build descriptors alone, the started candidates are the
    candidates that are eligible in the workspace as the run found it. *)
Theorem one_outcome_per_eligible (Π : platform) (pkgs : list string)
    (m : filesystem) (r : run_result) (s' : state) :
  run Π pkgs (start m) = Ok r s' →
  length (successes r) + length (failures r) = length (started (log s')) ∧
  successes r ++ failures r ≡ₚ started (log s') ∧
  pkgs ≡ₚ started (log s') ++ skipped (log s') ∧
  (NoDup pkgs →
     NoDup (successes r ++ failures r) ∧
     ∀ p, p ∈ skipped (log s') → (p ∉ successes r) ∧ (p ∉ failures r)) ∧
  (tool_keeps_descriptors Π →
     started (log s') = filter (λ p, eligible m p = true) pkgs ∧
     length (successes r) + length (failures r)
       = length (filter (λ p, eligible m p = true) pkgs)).
Proof.
  intros Hrun. pose proof Hrun as (_ & Hperm & _ & _ & _ & Hst)%run_lists.
  split_and!; [by rewrite Hst, length_app|done|done| |].
  2:{ intros Hkeep. rewrite <- (run_started_eligible Π pkgs m r s' Hrun Hkeep).
      split; [done|]. by rewrite Hst, length_app. }
  intros Hnd. rewrite Hperm, Hst in Hnd.
  apply NoDup_app in Hnd as (Hnd & Hdisj & _).
  split; [done|]. intros p Hp.
  assert (p ∉ successes r ++ failures r) as Hnot.
  { intros Hin. by apply (Hdisj p). }
  rewrite elem_of_app in Hnot. tauto.
Qed.

Lemma one_outcome_per_eligible_witness :
  length (successes demo_result) + length (failures demo_result)
    = length (started (log (final demo_run))) ∧
  started (log (final demo_run)) = ["core"; "idp"] ∧
  length (successes demo_result) + length (failures demo_result)
    = length (filter (λ p, eligible demo_fs p = true) packages).
Proof.
  destruct (one_outcome_per_eligible demo packages demo_fs demo_result (final demo_run))
    as (Hlen & _ & _ & _ & Hel).
  - refine (ok_final demo_run demo_result _).
    vm_compute. reflexivity.
  - split; [exact Hlen|]. split; [by vm_compute|].
    exact (proj2 (Hel demo_keeps_descriptors)).
Defined.

(** C5. A candidate passes line 72 exactly when its directory exists and
    holds a [pyproject.toml].  One that does not pass leaves its "Skipping"
    line and nothing else: both lists and the file system stay as they
    were, and [shutil.rmtree] is not called.  One that passes leaves its
    "Building" line first.  Over a whole run with distinct candidate names,
    a skipped candidate is in neither list and no directory handed to
    [shutil.rmtree] lies in its directory. *)
Theorem ineligible_skipped (Π : platform) :
  (∀ m package,
     eligible m package = true ↔
       is_Some (m !! (python_dir </> package)) ∧
       is_Some (m !! (python_dir </> package </> "pyproject.toml"))) ∧
  (∀ python_cmd package built failed s,
     eligible (fs s) package = false →
     build_package Π python_cmd package (built, failed) s
       = Ok (built, failed) (State (fs s) (log s ++ [EPrint (Skipping package)]))) ∧
  (∀ python_cmd package built failed s,
     eligible (fs s) package = true →
     ∃ t, log (final (build_package Π python_cmd package (built, failed) s))
            = log s ++ EPrint (Building package) :: t) ∧
  (∀ pkgs m r s',
     run Π pkgs (start m) = Ok r s' → NoDup pkgs →
     ∀ p, p ∈ skipped (log s') →
       (p ∉ successes r) ∧ (p ∉ failures r) ∧
       ∀ q, q ∈ removals (log s') → ¬ (python_dir </> p) `prefix_of` q).
Proof.
  split_and!.
  - apply eligible_spec.
  - intros python_cmd package built failed s He.
    by rewrite build_package_eq, He.
  - intros python_cmd package built failed s He.
    rewrite build_package_eq, He. cbv zeta. unfold clean_previous_builds.
    destruct (clean_dirs_final Π (python_dir </> package) (cleanup_dirs package)
                (record (EPrint (Building package)) s)) as (rs & _ & Hlog & _).
    destruct (clean_dirs _ _ _ _) as [[] s1|e s1]; simpl in Hlog.
    + destruct (spawn _ _ _ _ _) as [rc out err after|rc after|kind filename];
        [destruct (rc =? 0)%Z|..]; simpl; rewrite Hlog, <- !app_assoc; simpl;
        by eauto.
    + simpl. rewrite Hlog, <- !app_assoc. simpl. by eauto.
  - intros pkgs m r s' Hrun Hnd p Hp.
    pose proof Hrun as (_ & Hperm & Hrm & _ & _ & Hst)%run_lists.
    rewrite Hperm in Hnd. apply NoDup_app in Hnd as (_ & Hdisj & _).
    assert (p ∉ started (log s')) as Hns by (intros Hin; by apply (Hdisj p)).
    rewrite Hst, elem_of_app in Hns. split_and!; [tauto..|].
    intros q Hq Hpre.
    destruct (Hrm q Hq) as (pkg & Hpkg & (c & _ & ->)%cleanup_paths_inside).
    assert (p = pkg) as -> by (by eapply package_dir_inj).
    by apply (Hdisj pkg).
Qed.

Lemma ineligible_skipped_witness :
  eligible demo_fs "notification" = false ∧
  skipped (log (final demo_run)) = ["notification"] ∧
  ("notification" ∉ successes demo_result) ∧
  ("notification" ∉ failures demo_result) ∧
  ∀ q, q ∈ removals (log (final demo_run)) →
       ¬ (python_dir </> "notification") `prefix_of` q.
Proof.
  assert (skipped (log (final demo_run)) = ["notification"]) as Hsk by (by vm_compute).
  split; [by vm_compute|]. split; [exact Hsk|].
  destruct (ineligible_skipped demo) as (_ & _ & _ & Hrun).
  apply (Hrun packages demo_fs demo_result (final demo_run)).
  - refine (ok_final demo_run demo_result _).
    vm_compute. reflexivity.
  - apply (bool_decide_unpack _). vm_compute. exact I.
  - rewrite Hsk. left.
Defined.

(** C6. The candidates are examined in the order of the list whatever
    happens to each of them: the names of the "Skipping" and "Building"
    lines of any run, returning or not, are an initial segment of the list,
    and the whole list when the run returns.  Both result lists keep the
    order of the candidate list.  The candidates are dealt with one at a
    time: between the three opening events and the summary, the log of a
    returning run is a sequence of blocks, one per candidate in the order of
    the list, each holding the events of that candidate alone. *)
Theorem declaration_order (Π : platform) (pkgs : list string) (m : filesystem) :
  examined (log (final (run Π pkgs (start m)))) `prefix_of` pkgs ∧
  ∀ r s', run Π pkgs (start m) = Ok r s' →
    examined (log s') = pkgs ∧
    successes r `sublist_of` pkgs ∧
    failures r `sublist_of` pkgs ∧
    ∃ ts,
      log s' = prologue (workspace_root_str Π) ++ concat ts ++
               (EPrint <$> summary_lines (workspace_root_str Π)
                             (successes r) (failures r) (fs s')) ∧
      Forall2 (λ package ti, ∃ b f lists,
                 step_trace (build_cmd Π (chosen_python Π m)) package b f ti
                   (Some lists)) pkgs ts.
Proof.
  split; [apply run_final_examined|].
  intros r s' Hrun.
  pose proof Hrun as (Hex & _ & _ & Hs & Hf & _)%run_lists.
  split_and!; try done.
  apply run_returns in Hrun as (t & Hloop & Hlog & _).
  apply loop_trace_blocks in Hloop as (ts & -> & Hblocks).
  by exists ts.
Qed.

Lemma declaration_order_witness :
  examined (log (final demo_run)) = packages ∧
  successes demo_result `sublist_of` packages ∧
  failures demo_result `sublist_of` packages.
Proof.
  destruct (proj2 (declaration_order demo packages demo_fs) demo_result (final demo_run))
    as (Hex & Hs & Hf & _).
  - refine (ok_final demo_run demo_result _).
    vm_compute. reflexivity.
  - by split_and!.
Defined.

(** C7. Cleaning a package hands to [shutil.rmtree] only directories among
    [build], [dist], [<package>.egg-info] and
    [geniustechspace_<package>.egg-info] of the package's own directory.
    Whether the cleaning returns or raises, it creates and modifies nothing,
    and every entry that is not inside one of these four directories is
    kept as it was; in particular all entries of another package's
    directory and of the shared output directory.  When the cleaning
    returns, none of the four is left.  When none of the four exists, it
    returns without having done anything. *)
Theorem isolator_scoped (Π : platform) (package : string) (s : state) :
  let package_dir := python_dir </> package in
  let r := clean_previous_builds Π package_dir package s in
  (∃ rs, rs `sublist_of` cleanup_paths package ∧
         log (final r) = log s ++ (ERmtree <$> rs)) ∧
  (∀ p, p ∈ cleanup_paths package →
        ∃ c, c ∈ cleanup_dirs package ∧ p = package_dir </> c) ∧
  fs (final r) ⊆ fs s ∧
  (∀ q, (∀ p, p ∈ cleanup_paths package → ¬ p `prefix_of` q) →
        fs (final r) !! q = fs s !! q) ∧
  (∀ other q, other ≠ package → (python_dir </> other) `prefix_of` q →
        fs (final r) !! q = fs s !! q) ∧
  (∀ q, dist_dir `prefix_of` q → fs (final r) !! q = fs s !! q) ∧
  (returned r = Some tt → ∀ p, p ∈ cleanup_paths package → fs (final r) !! p = None) ∧
  ((∀ p, p ∈ cleanup_paths package → fs s !! p = None) → r = Ok tt s).
Proof.
  intros package_dir r. subst r package_dir. unfold clean_previous_builds.
  destruct (clean_dirs_final Π (python_dir </> package) (cleanup_dirs package) s)
    as (rs & Hrs & Hlog & Hsub & Hfr).
  assert (∀ q, (∀ p, p ∈ cleanup_paths package → ¬ p `prefix_of` q) →
    fs (final (clean_dirs Π (python_dir </> package) (cleanup_dirs package) s)) !! q
      = fs s !! q) as Hframe.
  { intros q Hq. apply Hfr. intros c Hc. apply Hq.
    unfold cleanup_paths. apply list_elem_of_fmap. eauto. }
  split_and!.
  - by exists rs.
  - apply cleanup_paths_inside.
  - done.
  - done.
  - intros other q Hne Hpre. apply Hframe.
    intros p (c & _ & ->)%cleanup_paths_inside Hp.
    apply Hne. by eapply package_dir_inj.
  - intros q Hpre. apply Hframe.
    intros p (c & _ & ->)%cleanup_paths_inside Hp.
    by eapply output_dir_apart.
  - destruct (clean_dirs _ _ _ _) as [[] s'|e s'] eqn:Hc; [|done].
    intros _ p (c & Hin & ->)%cleanup_paths_inside. simpl.
    by eapply clean_dirs_removed.
  - intros Habs. apply clean_dirs_absent. intros c Hc. apply Habs.
    unfold cleanup_paths. apply list_elem_of_fmap. eauto.
Qed.

Lemma isolator_scoped_witness :
  returned (clean_previous_builds demo (python_dir </> "core") "core" (start demo_fs))
    = Some tt ∧
  removals (log (final (clean_previous_builds demo (python_dir </> "core") "core"
                          (start demo_fs))))
    = [python_dir </> "core" </> "build"] ∧
  fs (final (clean_previous_builds demo (python_dir </> "core") "core" (start demo_fs)))
    !! (python_dir </> "core" </> "build") = None ∧
  fs (final (clean_previous_builds demo (python_dir </> "core") "core" (start demo_fs)))
    !! (python_dir </> "idp" </> "build") = Some dir_node ∧
  fs (final (clean_previous_builds demo (python_dir </> "core") "core" (start demo_fs)))
    !! (dist_dir </> "old-0.0.9-py3-none-any.whl") = Some (file_node 2048).
Proof.
  destruct (isolator_scoped demo "core" (start demo_fs))
    as (_ & _ & _ & _ & Hsib & Hdist & Hgone & _).
  assert (returned (clean_previous_builds demo (python_dir </> "core") "core"
                      (start demo_fs)) = Some tt) as Hret by (by vm_compute).
  split_and!.
  - exact Hret.
  - by vm_compute.
  - apply (Hgone Hret). apply (bool_decide_unpack _). vm_compute. exact I.
  - rewrite (Hsib "idp"); [by vm_compute|done|]. by eexists.
  - rewrite Hdist; [by vm_compute|]. by eexists.
Defined.

(** C8.  [run_command] attaches the standard error of a failed build only
    when it decodes: [subprocess.run] decodes both captured streams before
    it looks at the exit status, and the [UnicodeDecodeError] of that is
    not among the exceptions [run_command] catches.  On the demonstration
    workspace with a build tool that, for [idp], exits with status 1 after
    writing bytes that are not text in the encoding of the locale,
    [run_command] raises instead of returning [(False, stderr)], the run
    ends with that exception, and no error line and no diagnostic text is
    printed for [idp], at the time of the failure or later; [idp] is in no
    list of failures. *)
Lemma undecodable_failure_counterexample :
  (∀ h cmd m, spawn garbling h cmd (python_dir </> "idp") m = Garbled 1 m) ∧
  raised (run_command garbling (build_cmd garbling "/usr/bin/python3")
            (python_dir </> "idp") (start demo_fs))
    = Some UnicodeDecodeError ∧
  raised (run garbling packages (start demo_fs)) = Some UnicodeDecodeError ∧
  started (log (final (run garbling packages (start demo_fs)))) = ["core"; "idp"] ∧
  error_lines (log (final (run garbling packages (start demo_fs)))) = [] ∧
  outputs (log (final (run garbling packages (start demo_fs)))) = [] ∧
  ¬ (∃ r s', run garbling packages (start demo_fs) = Ok r s' ∧ "idp" ∈ failures r).
Proof.
  split_and!; [done|by vm_compute..|].
  intros (r & s' & H & _).
  assert (returned (run garbling packages (start demo_fs)) = None) as Hn
    by (by vm_compute).
  by rewrite H in Hn.
Qed.

(** C9. The only value other than 0 that [main] returns is 1.  A run with
    a failed package returns 1, and [main] hands that value to
    [sys.exit]: the status of the process is then 1.  So it is whenever an
    eligible candidate has a build tool that exits with a status other
    than 0.  Every returning run returns 0 or 1, and the status of the
    process is 0 or 1. *)
Theorem exit_signal_is_one (Π : platform) (m : filesystem) :
  (∀ pkgs r s', run Π pkgs (start m) = Ok r s' →
     (failures r ≠ [] → exit_signal r = 1%Z) ∧
     (exit_signal r = 0%Z ∨ exit_signal r = 1%Z)) ∧
  (∀ r s', run Π packages (start m) = Ok r s' → failures r ≠ [] →
     main Π (start m) = Ok 1%Z s' ∧ process_exit (main Π (start m)) = 1%Z) ∧
  (∀ p, p ∈ packages → eligible m p = true →
     tool_keeps_descriptors Π → tool_fails Π p →
     process_exit (main Π (start m)) = 1%Z) ∧
  (process_exit (main Π (start m)) = 0%Z ∨
   process_exit (main Π (start m)) = 1%Z).
Proof.
  assert (∀ r s', run Π packages (start m) = Ok r s' → failures r ≠ [] →
            main Π (start m) = Ok 1%Z s') as Hmain.
  { intros r s' Hrun Hne. unfold main, mbind, M_bind. rewrite Hrun.
    apply run_returns in Hrun as (t & _ & _ & ->).
    by rewrite bool_decide_eq_false_2. }
  split_and!.
  - intros pkgs r s' (t & _ & _ & ->)%run_returns.
    case_bool_decide; split; auto. done.
  - intros r s' Hrun Hne. by rewrite (Hmain r s' Hrun Hne).
  - intros p Hp He Hkeep Hfail.
    destruct (run Π packages (start m)) as [r s'|e s'] eqn:Hrun.
    + assert (p ∈ failures r) as Hin by (by eapply run_failing_tool).
      rewrite (Hmain r s' eq_refl); [done|].
      intros Hnil. rewrite Hnil in Hin. by apply elem_of_nil in Hin.
    + unfold main, mbind, M_bind. by rewrite Hrun.
  - unfold main, mbind, M_bind.
    destruct (run Π packages (start m)) as [r s'|e s'] eqn:Hrun; simpl; [|by right].
    apply run_returns in Hrun as (t & _ & _ & ->). case_bool_decide; auto.
Qed.

Lemma exit_signal_is_one_witness :
  process_exit (main demo (start demo_fs)) = 1%Z ∧
  main demo (start demo_fs) = Ok 1%Z (final demo_run).
Proof.
  destruct (exit_signal_is_one demo demo_fs) as (_ & Hmain & Hfail & _).
  split.
  - apply (Hfail "idp").
    + apply (bool_decide_unpack _). vm_compute. exact I.
    + reflexivity.
    + exact demo_keeps_descriptors.
    + exact demo_fails_idp.
  - apply (Hmain demo_result (final demo_run)).
    + refine (ok_final demo_run demo_result _). vm_compute. reflexivity.
    + discriminate.
Defined.

(** C10. In a run that returns, the artifact section of the summary is
    determined by the entries of the shared output directory whose names
    end in [.whl] (a stem followed by [.whl]), as they are when the summary
    is printed.  With none, the section is absent: no header, no item, no
    installation hint.  Otherwise it is the header, one line per entry with
    its size, in sorted order of the names, each entry once, and the
    installation hint.  A wheel that was
    in the output directory before the run and that the build tool leaves
    alone is listed: the script itself removes nothing there. *)
Theorem artifact_listing (Π : platform) (pkgs : list string) (m : filesystem)
    (r : run_result) (s' : state) :
  run Π pkgs (start m) = Ok r s' →
  let names := whl_names dist_dir (fs s') in
  artifact_lines (log s') =
    (if bool_decide (names = []) then []
     else WheelHeader ::
          ((λ name, WheelItem name
                      (default 0%N (st_size <$> fs s' !! (dist_dir </> name))))
             <$> sorted_names names) ++
          [InstallHeader; InstallCommand (path_str Π dist_dir)]) ∧
  StronglySorted String.le (sorted_names names) ∧
  sorted_names names ≡ₚ names ∧
  NoDup names ∧
  (∀ name, is_whl name = true ↔ ∃ stem, name = stem +:+ ".whl") ∧
  (∀ name, name ∈ names ↔
     (∃ n, fs s' !! dist_dir = Some n ∧ is_dir n = true) ∧
     is_Some (fs s' !! (dist_dir </> name)) ∧ is_whl name = true) ∧
  (∀ name n,
     m !! (dist_dir </> name) = Some n → is_whl name = true →
     tool_keeps Π dist_dir → tool_keeps Π (dist_dir </> name) →
     name ∈ names).
Proof.
  intros Hrun names. split_and!.
  - pose proof Hrun as (t & Hloop & -> & _)%run_returns.
    rewrite !artifact_lines_app, (loop_artifact_lines _ _ _ _ _ _ _ Hloop).
    rewrite (proj2 (proj2 (proj2 (proj2 (prologue_events _))))).
    rewrite summary_artifact_lines, wheel_lines_names. done.
  - apply StronglySorted_merge_sort; apply _.
  - apply merge_sort_Permutation.
  - apply NoDup_filter, NoDup_dir_entries.
  - intros name. apply ends_with_spec.
  - intros name. apply elem_of_whl_names.
  - intros name n Hm Hw Hkd Hkn. apply elem_of_whl_names.
    apply run_final_fs in Hrun as (s1 & lists & Hmk & ->).
    rewrite !loop_keeps_output; try done; [|by apply prefix_app_r].
    simpl. unfold mkdir_parents_exist_ok in Hmk.
    split_and!; [|..|done].
    + change dist_dir with ([] ++ "dist" :: ["python"]).
      by eapply mkdir_from_is_dir.
    + destruct (mkdir_from_final Π dist_dir [] dist_dir
                  (record (EMkdir dist_dir)
                     (record (EPrint (SectionBanner
                        "Building Python Packages for Distribution")) (start m))))
        as (_ & Hsub & _).
      rewrite Hmk in Hsub. simpl in Hsub.
      exists n. by eapply lookup_weaken.
Qed.

Lemma artifact_listing_witness :
  artifact_lines (log (final demo_run)) =
    [WheelHeader;
     WheelItem "core-0.1.0-py3-none-any.whl" 1000;
     WheelItem "old-0.0.9-py3-none-any.whl" 2048;
     InstallHeader; InstallCommand "/ws/dist/python"] ∧
  StronglySorted String.le (sorted_names (whl_names dist_dir (fs (final demo_run)))).
Proof.
  split; [by vm_compute|].
  apply (artifact_listing demo packages demo_fs demo_result (final demo_run)).
  refine (ok_final demo_run demo_result _).
  vm_compute. reflexivity.
Defined.

(** * Further properties of the script *)

(** ** More about traces *)

Lemma omap_rmtree {B} (f : event → option B) (rs : list path) :
  (∀ r, f (ERmtree r) = None) → omap f (ERmtree <$> rs) = [].
Proof.
  intros Hf. apply omap_all_none, Forall_fmap, Forall_true. intros r. apply Hf.
Qed.

Ltac block_simpl :=
  unfold spawns, success_lines, error_lines, outputs, summary_part, started,
    built_headers, built_items, failed_headers, failed_items;
  repeat match goal with
         | |- context [omap ?f (?x :: (ERmtree <$> ?rs) ++ ?l)] =>
             change (omap f (x :: (ERmtree <$> rs) ++ l))
               with (omap f ([x] ++ (ERmtree <$> rs) ++ l))
         | |- context [omap ?f (?x :: (ERmtree <$> ?rs))] =>
             change (omap f (x :: (ERmtree <$> rs)))
               with (omap f ([x] ++ (ERmtree <$> rs)))
         end;
  rewrite ?omap_app, ?omap_rmtree by done; simpl.

(** What one pass of the loop body leaves in the log, by outcome. *)
Lemma step_trace_progress cmd package built failed t o :
  step_trace cmd package built failed t o →
  summary_part t = [] ∧
  built_items t = [] ∧ failed_items t = [] ∧
  built_headers t = [] ∧ failed_headers t = [] ∧
  Forall (λ x, x = (cmd, python_dir </> package)) (spawns t) ∧
  ∀ built' failed', o = Some (built', failed') →
    (started t = [] ∧ spawns t = [] ∧ success_lines t = [] ∧
     error_lines t = [] ∧ outputs t = [] ∧
     built' = built ∧ failed' = failed) ∨
    (started t = [package] ∧ spawns t = [(cmd, python_dir </> package)] ∧
     success_lines t = [package +:+ " built successfully"] ∧
     error_lines t = [] ∧ outputs t = [] ∧
     built' = built ++ [package] ∧ failed' = failed) ∨
    (started t = [package] ∧ spawns t = [(cmd, python_dir </> package)] ∧
     success_lines t = [] ∧
     error_lines t = [package +:+ " build failed:"] ∧ length (outputs t) = 1 ∧
     built' = built ∧ failed' = failed ++ [package]).
Proof.
  intros H. inversion H; subst; block_simpl;
    (split_and!; [done..|by repeat constructor|]);
    intros built' failed' [= <- <-] || (intros ? ? ?; done).
  - left. by split_and!.
  - right; left. by split_and!.
  - right; right. by split_and!.
Qed.

Lemma loop_trace_progress cmd pkgs built failed t built' failed' :
  loop_trace cmd pkgs built failed t built' failed' →
  summary_part t = [] ∧
  built_items t = [] ∧ failed_items t = [] ∧
  built_headers t = [] ∧ failed_headers t = [] ∧
  spawns t = (λ p, (cmd, python_dir </> p)) <$> started t ∧
  ∃ bs fs,
    built' = built ++ bs ∧ failed' = failed ++ fs ∧
    success_lines t = (λ p, p +:+ " built successfully") <$> bs ∧
    error_lines t = (λ p, p +:+ " build failed:") <$> fs ∧
    length (outputs t) = length fs.
Proof.
  induction 1 as [built failed
                 |package pkgs built failed t1 built1 failed1 t2 built2 failed2
                    Hstep Hloop
                    (IH1 & IH2 & IH3 & IH4 & IH5 & IHsp & bs & fs & -> & -> & IHs & IHe & IHo)].
  { split_and!; try done. exists [], []. by rewrite !app_nil_r. }
  apply step_trace_progress in Hstep as (S1 & S2 & S3 & S4 & S5 & _ & Hout).
  unfold summary_part, built_items, failed_items, built_headers, failed_headers,
    spawns, success_lines, error_lines, outputs, started in *.
  rewrite !omap_app, S1, S2, S3, S4, S5, IH1, IH2, IH3, IH4, IH5.
  split_and!; try done.
  - destruct (Hout _ _ eq_refl)
      as [(-> & -> & _)|[(-> & -> & _)|(-> & -> & _)]]; simpl; by rewrite IHsp.
  - destruct (Hout _ _ eq_refl)
      as [(_ & _ & -> & -> & -> & -> & ->)
         |[(_ & _ & -> & -> & -> & -> & ->)|(_ & _ & -> & -> & Hl & -> & ->)]].
    + exists bs, fs. by split_and!.
    + exists (package :: bs), fs. rewrite <- !app_assoc. simpl.
      split_and!; try done. by rewrite IHs.
    + exists bs, (package :: fs). rewrite <- !app_assoc. simpl.
      split_and!; try done; [by rewrite IHe|].
      rewrite length_app, Hl, IHo. done.
Qed.

(** However the loop ends, its events are blocks of the candidates it got
    to, in the order of the list. *)
Lemma loop_final_blocks (Π : platform) python_cmd pkgs lists s :
  ∃ reached ts,
    reached `prefix_of` pkgs ∧
    log (final (for_each_acc pkgs (build_package Π python_cmd) lists s))
      = log s ++ concat ts ∧
    Forall2 (λ package ti, ∃ b f o,
               step_trace (build_cmd Π python_cmd) package b f ti o) reached ts ∧
    (is_Some (returned (for_each_acc pkgs (build_package Π python_cmd) lists s)) →
     reached = pkgs).
Proof.
  revert lists s.
  induction pkgs as [|package pkgs IH]; intros [built failed] s.
  { exists [], []. simpl. by rewrite app_nil_r. }
  rewrite for_each_acc_cons.
  destruct (build_package_trace Π python_cmd package built failed s)
    as (t1 & Hlog1 & Hstep).
  destruct (build_package _ _ _ _ _) as [lists1 s1|e s1]; simpl in Hlog1.
  - destruct (IH lists1 s1) as (reached & ts & Hpre & Hlog & Hblocks & Hall).
    exists (package :: reached), (t1 :: ts). split_and!.
    + by apply prefix_cons.
    + rewrite Hlog, Hlog1. simpl. by rewrite <- app_assoc.
    + constructor; [by eauto|done].
    + intros Hret. by rewrite Hall.
  - exists [package], [t1]. split_and!.
    + apply prefix_cons, prefix_nil.
    + simpl. by rewrite Hlog1, app_nil_r.
    + repeat constructor. by eauto.
    + by intros [? [=]].
Qed.


Lemma blocks_progress cmd reached ts :
  Forall2 (λ package ti, ∃ b f o, step_trace cmd package b f ti o) reached ts →
  summary_part (concat ts) = [] ∧
  Forall (λ x, ∃ p, p ∈ reached ∧ x = (cmd, python_dir </> p)) (spawns (concat ts)).
Proof.
  induction 1 as [|package t reached ts (b & f & o & Hstep) _ [IH1 IH2]]; [done|].
  apply step_trace_progress in Hstep as (S1 & _ & _ & _ & _ & Hsp & _).
  simpl. unfold summary_part, spawns in *. rewrite !omap_app, S1, IH1.
  split; [done|]. apply Forall_app. split.
  - eapply Forall_impl; [exact Hsp|]. intros x ->. exists package. split; [left|done].
  - eapply Forall_impl; [exact IH2|]. intros x (p & Hp & ->).
    exists p. split; [by right|done].
Qed.

(** ** The shape of any run *)

(** The exceptions that can leave the loop: an [OSError] of
    [shutil.rmtree] or of the launch of the child process, or the
    [UnicodeDecodeError] of its output.  A [CalledProcessError] never
    does. *)
Lemma loop_raise_kind (Π : platform) python_cmd pkgs lists s e s' :
  for_each_acc pkgs (build_package Π python_cmd) lists s = Raise e s' →
  e = UnicodeDecodeError ∨ ∃ kind filename, e = OSError kind filename.
Proof.
  revert lists s. induction pkgs as [|package pkgs IH]; intros [built failed] s;
    [done|].
  rewrite for_each_acc_cons, build_package_eq.
  destruct (eligible (fs s) package); [|by apply IH].
  cbv zeta. unfold clean_previous_builds.
  destruct (clean_dirs _ _ _ _) as [[] s1|e1 s1] eqn:Hc.
  - destruct (spawn _ _ _ _ _) as [rc out err after|rc after|kind filename].
    + destruct (rc =? 0)%Z; by apply IH.
    + intros [= <- <-]. by left.
    + intros [= <- <-]. right. eauto.
  - intros [= <- <-].
    apply clean_dirs_raise in Hc as (c & kind & filename & _ & -> & _).
    right. eauto.
Qed.

(** Any run: it ends at line 60; or in the loop, after the blocks of the
    candidates it got to; or in the summary, after the blocks of all
    candidates and some of the summary's lines, the two package lists
    among them; or it returns, after all of them. *)
Lemma run_final_blocks (Π : platform) pkgs m :
  (dist_dir_creatable Π m = false ∧
   log (final (run Π pkgs (start m)))
     = [EPrint (SectionBanner "Building Python Packages for Distribution");
        EMkdir dist_dir] ∧
   ∃ kind filename, raised (run Π pkgs (start m)) = Some (OSError kind filename)) ∨
  (dist_dir_creatable Π m = true ∧
   ∃ reached ts,
     reached `prefix_of` pkgs ∧
     Forall2 (λ package ti, ∃ b f o,
                step_trace (build_cmd Π (chosen_python Π m)) package b f ti o)
       reached ts ∧
     ((∃ e,
         raised (run Π pkgs (start m)) = Some e ∧
         (e = UnicodeDecodeError ∨ ∃ kind filename, e = OSError kind filename) ∧
         log (final (run Π pkgs (start m)))
           = prologue (workspace_root_str Π) ++ concat ts) ∨
      (∃ built failed ls,
         reached = pkgs ∧
         ls `prefix_of` summary_lines (workspace_root_str Π) built failed
                          (fs (final (run Π pkgs (start m)))) ∧
         summary_head built failed `prefix_of` ls ∧
         log (final (run Π pkgs (start m)))
           = prologue (workspace_root_str Π) ++ concat ts ++ (EPrint <$> ls) ∧
         ((∃ kind filename,
             raised (run Π pkgs (start m)) = Some (OSError kind filename)) ∨
          (returned (run Π pkgs (start m))
             = Some (RunResult built failed
                       (if bool_decide (failed = []) then 0 else 1)) ∧
           ls = summary_lines (workspace_root_str Π) built failed
                  (fs (final (run Π pkgs (start m))))))))).
Proof.
  destruct (mkdir_dist_cases Π
              (record (EPrint (SectionBanner "Building Python Packages for Distribution"))
                 (start m)))
    as [(Hd & s1 & Hmk)|(Hd & e & s1 & Hmk)]; cbn [record fs start] in Hd.
  - right. split; [done|].
    rewrite run_loop_start by (by rewrite Hmk).
    destruct (loop_final_blocks Π (chosen_python Π m) pkgs ([], []) (loop_start Π m))
      as (reached & ts & Hpre & Hlog & Hblocks & Hall).
    exists reached, ts. split_and!; [done..|].
    rewrite log_loop_start in Hlog.
    destruct (for_each_acc _ _ _ _) as [[built failed] s2|e s2] eqn:Hloop;
      cbn [final log] in Hlog.
    + right. exists built, failed.
      destruct (print_summary_prefix Π built failed s2)
        as (ls & Hls & Hhead & Hfin & Hret & Hraise).
      exists ls.
      destruct (print_summary _ _ _ _) as [[] s3|e3 s3];
        cbn [final returned raised] in *; subst s3; cbn [fs log].
      * split_and!; [by apply Hall|done|done|by rewrite Hlog, <- app_assoc|].
        right. split; [done|]. apply Hret. by eauto.
      * split_and!; [by apply Hall|done|done|by rewrite Hlog, <- app_assoc|].
        left. destruct (Hraise e3 eq_refl) as (kind & filename & ->). by eauto.
    + left. exists e. split; [done|]. split; [|done].
      by apply loop_raise_kind in Hloop.
  - left. split; [done|]. rewrite run_eq, Hmk. cbn [final raised].
    unfold mkdir_parents_exist_ok in Hmk.
    pose proof (mkdir_from_final Π dist_dir [] dist_dir
      (record (EMkdir dist_dir)
         (record (EPrint (SectionBanner "Building Python Packages for Distribution"))
            (start m)))) as (Hlog & _).
    rewrite Hmk in Hlog. apply mkdir_from_raise in Hmk as (kind & filename & ->).
    split; [done|]. by eauto.
Qed.

Lemma omap_prints_none {B} (f : event → option B) (ls : list line) :
  (∀ l, f (EPrint l) = None) → omap f (EPrint <$> ls) = [].
Proof.
  intros Hf. apply omap_all_none, Forall_fmap, Forall_true. intros l. apply Hf.
Qed.


Lemma spawns_app t1 t2 : spawns (t1 ++ t2) = spawns t1 ++ spawns t2.
Proof. apply omap_app. Qed.









Lemma spawns_prints (ls : list line) : spawns (EPrint <$> ls) = [].
Proof. by apply omap_prints_none. Qed.

(** The lines before the loop are no progress line and no summary line. *)
Lemma prologue_progress root :
  spawns (prologue root) = [] ∧ summary_part (prologue root) = [] ∧
  success_lines (prologue root) = [] ∧ error_lines (prologue root) = [] ∧
  outputs (prologue root) = [] ∧
  built_items (prologue root) = [] ∧ failed_items (prologue root) = [] ∧
  built_headers (prologue root) = [] ∧ failed_headers (prologue root) = [].
Proof. done. Qed.

(** X1. Every eligible candidate gets one child process, and all child
    processes of a run are started with the same command line,
    [<python> -m build --wheel --outdir <dist>], where the interpreter is
    the one line 55 chose from the workspace as the run found it; each runs
    in the directory of its package.  In a run that returns, the child
    processes are those of the started candidates, in their order, and
    there are as many as outcomes. *)
Theorem one_process_per_started (Π : platform) (pkgs : list string)
    (m : filesystem) :
  let cmd := build_cmd Π (chosen_python Π m) in
  (∀ r s', run Π pkgs (start m) = Ok r s' →
     spawns (log s') = (λ p, (cmd, python_dir </> p)) <$> started (log s') ∧
     length (spawns (log s')) = length (successes r) + length (failures r)) ∧
  Forall (λ x, ∃ p, p ∈ pkgs ∧ x = (cmd, python_dir </> p))
    (spawns (log (final (run Π pkgs (start m))))).
Proof.
  intros cmd. split.
  - intros r s' Hrun.
    pose proof Hrun as (_ & _ & _ & _ & _ & Hst)%run_lists.
    apply run_returns in Hrun as (t & Hloop & Hlog & _).
    apply loop_trace_progress in Hloop as (_ & _ & _ & _ & _ & Hsp & _).
    assert (spawns (log s') = (λ p, (cmd, python_dir </> p)) <$> started (log s'))
      as Heq.
    { destruct (prologue_events (workspace_root_str Π)) as (_ & P1 & _).
      destruct (prologue_progress (workspace_root_str Π)) as (P2 & _).
      destruct (summary_events (workspace_root_str Π) (successes r) (failures r)
                  (fs s')) as (_ & P3 & _).
      rewrite Hlog, !spawns_app, !started_app, P1, P2, P3, spawns_prints, Hsp.
      simpl. by rewrite !app_nil_r. }
    split; [done|]. by rewrite Heq, length_fmap, Hst, length_app.
  - destruct (prologue_progress (workspace_root_str Π)) as (P2 & _).
    destruct (run_final_blocks Π pkgs m)
      as [(_ & -> & _)|(_ & reached & ts & Hpre & Hblocks & Hlog)];
      [by constructor|].
    apply blocks_progress in Hblocks as [_ Hsp].
    assert (Forall (λ x, ∃ p, p ∈ pkgs ∧ x = (cmd, python_dir </> p))
              (spawns (concat ts))) as Hall.
    { eapply Forall_impl; [exact Hsp|]. intros x (p & Hp & ->).
      exists p. split; [|done]. destruct Hpre as [k ->].
      apply elem_of_app. by left. }
    destruct Hlog as [(e & _ & _ & ->)|(built & failed & ls & _ & _ & _ & -> & _)];
      rewrite !spawns_app, P2, ?spawns_prints, ?app_nil_r; done.
Qed.

Lemma one_process_per_started_witness :
  spawns (log (final demo_run)) =
    [(build_cmd demo "/usr/bin/python3", python_dir </> "core");
     (build_cmd demo "/usr/bin/python3", python_dir </> "idp")] ∧
  length (spawns (log (final demo_run)))
    = length (successes demo_result) + length (failures demo_result).
Proof.
  split; [by vm_compute|].
  apply (proj1 (one_process_per_started demo packages demo_fs) demo_result
           (final demo_run)).
  refine (ok_final demo_run demo_result _).
  vm_compute. reflexivity.
Defined.

(** ** The output directory, line 60 *)

(** When the output directory and its parent are there already, line 60
    changes nothing. *)
Lemma mkdir_dist_present (Π : platform) s n1 n2 :
  fs s !! ([] </> "dist") = Some n1 → is_dir n1 = true →
  fs s !! dist_dir = Some n2 → is_dir n2 = true →
  mkdir_parents_exist_ok Π dist_dir s = Ok tt (record (EMkdir dist_dir) s).
Proof.
  intros H1 D1 H2 D2. unfold mkdir_parents_exist_ok.
  change dist_dir with ["dist"; "python"] at 2.
  rewrite mkdir_from_cons. cbn [record fs]. rewrite H1, D1.
  rewrite mkdir_from_cons. cbn [record fs].
  change ([] </> "dist" </> "python") with dist_dir. by rewrite H2, D2.
Qed.

(** X2. Nothing catches an exception of line 60: the run ends there with
    that exception, having printed the banner and nothing else, before
    any candidate is looked at; whatever was in the workspace is still
    there.  When line 60 returns, the loop starts with the output
    directory [dist/python] in place as a directory, every entry that was
    there kept, and nothing changed but the output directory and its
    parent; when both were there already, the workspace is unchanged.  The
    run then starts with the banner, the [mkdir] and the line that names
    the output directory. *)
Theorem output_dir_made_or_fatal (Π : platform) (pkgs : list string)
    (m : filesystem) :
  let banner := EPrint (SectionBanner "Building Python Packages for Distribution") in
  let r60 := mkdir_parents_exist_ok Π dist_dir (record banner (start m)) in
  (∀ e, raised r60 = Some e →
     run Π pkgs (start m) = Raise e (final r60) ∧
     log (final r60) = [banner; EMkdir dist_dir] ∧
     m ⊆ fs (final r60)) ∧
  (returned r60 = Some tt →
     (∃ n, fs (loop_start Π m) !! dist_dir = Some n ∧ is_dir n = true) ∧
     m ⊆ fs (loop_start Π m) ∧
     (∀ q, ¬ q `prefix_of` dist_dir → fs (loop_start Π m) !! q = m !! q) ∧
     (is_Some (m !! ([] </> "dist")) → is_Some (m !! dist_dir) →
      fs (loop_start Π m) = m) ∧
     prologue (workspace_root_str Π) `prefix_of` log (final (run Π pkgs (start m)))).
Proof.
  intros banner r60.
  destruct (mkdir_from_final Π dist_dir [] dist_dir
              (record (EMkdir dist_dir) (record banner (start m))))
    as (Hlog & Hsub & Hframe).
  split.
  - intros e He. rewrite run_eq. fold banner. fold r60.
    unfold r60, mkdir_parents_exist_ok in *.
    destruct (mkdir_from _ _ _ _ _) as [[] s1|e1 s1]; [done|].
    cbn [raised final] in *. by simplify_eq.
  - intros Hret.
    assert (dist_dir_creatable Π m = true) as Hd.
    { destruct (mkdir_dist_cases Π (record banner (start m)))
        as [(Hd & _)|(_ & e & s1 & Hmk)]; [done|].
      unfold r60 in Hret. by rewrite Hmk in Hret. }
    unfold loop_start. fold banner. fold r60. cbn [record fs].
    split_and!.
    + unfold r60, mkdir_parents_exist_ok in *.
      destruct (mkdir_from _ _ _ _ _) as [[] s1|] eqn:Hmk; [|done].
      by apply (mkdir_from_is_dir Π dist_dir [] "dist" ["python"]) in Hmk.
    + done.
    + done.
    + intros [n1 H1] [n2 H2].
      apply andb_prop in Hd as [D1 D2]. unfold can_make, with_dir in D1, D2.
      rewrite H1 in D1, D2. rewrite H2 in D2.
      pose proof (mkdir_dist_present Π (record banner (start m)) n1 n2 H1 D1 H2 D2)
        as Heq.
      unfold r60. by rewrite Heq.
    + destruct (run_final_blocks Π pkgs m)
        as [(Hno & _)|(_ & reached & ts & _ & _ & Hlog')]; [congruence|].
      destruct Hlog' as [(e & _ & _ & ->)|(b & f & ls & _ & _ & _ & -> & _)];
        by apply prefix_app_r.
Qed.

Lemma output_dir_made_or_fatal_witness :
  raised (run demo packages (start blocked_fs))
    = Some (OSError NotADirectoryError "/ws/dist/python") ∧
  raised (run read_only packages (start bare_fs))
    = Some (OSError (OtherOSError 30) "/ws/dist") ∧
  fs (loop_start demo demo_fs) = demo_fs.
Proof.
  split_and!.
  - destruct (proj1 (output_dir_made_or_fatal demo packages blocked_fs)
                (OSError NotADirectoryError "/ws/dist/python") eq_refl) as [-> _].
    reflexivity.
  - destruct (proj1 (output_dir_made_or_fatal read_only packages bare_fs)
                (OSError (OtherOSError 30) "/ws/dist") eq_refl) as [-> _].
    reflexivity.
  - apply (proj2 (output_dir_made_or_fatal demo packages demo_fs) eq_refl).
    + by eexists.
    + by eexists.
Defined.

(** ** The summary, lines 98-121 *)















(** ** Successful builds, lines 42 and 90-92 *)





(** ** What a whole run does to the workspace *)

Lemma clean_frame (Π : platform) package s q :
  (∀ c, c ∈ cleanup_dirs package → ¬ (python_dir </> package </> c) `prefix_of` q) →
  fs (final (clean_previous_builds Π (python_dir </> package) package s)) !! q
    = fs s !! q.
Proof.
  intros Hq. unfold clean_previous_builds.
  destruct (clean_dirs_final Π (python_dir </> package) (cleanup_dirs package) s)
    as (rs & _ & _ & _ & Hfr).
  by apply Hfr.
Qed.

Lemma loop_frame (Π : platform) python_cmd pkgs lists s q :
  tool_keeps Π q →
  (∀ p c, p ∈ pkgs → c ∈ cleanup_dirs p →
          ¬ (python_dir </> p </> c) `prefix_of` q) →
  fs (final (for_each_acc pkgs (build_package Π python_cmd) lists s)) !! q
    = fs s !! q.
Proof.
  intros Hkeep. revert lists s.
  induction pkgs as [|package pkgs IH]; intros [built failed] s Hq; [done|].
  assert (∀ p c, p ∈ pkgs → c ∈ cleanup_dirs p →
                 ¬ (python_dir </> p </> c) `prefix_of` q) as Hq'.
  { intros p c Hp. apply Hq. by right. }
  rewrite for_each_acc_cons, build_package_eq.
  destruct (eligible (fs s) package).
  2:{ by rewrite IH. }
  cbv zeta.
  pose proof (clean_frame Π package (record (EPrint (Building package)) s) q)
    as Hclean.
  specialize (Hclean (λ c, Hq package c (list_elem_of_here _ _))).
  destruct (clean_previous_builds _ _ _ _) as [[] s1|e s1]; simpl in Hclean; [|done].
  destruct (spawn _ _ _ _ _) as [rc out err after|rc after|kind filename] eqn:Hsp;
    [| |done].
  - assert (after !! q = fs s1 !! q) as Hsp' by (eapply Hkeep; by rewrite Hsp).
    destruct (rc =? 0)%Z; rewrite IH by done; cbn [fs]; exact (eq_trans Hsp' Hclean).
  - assert (after !! q = fs s1 !! q) as Hsp' by (eapply Hkeep; by rewrite Hsp).
    exact (eq_trans Hsp' Hclean).
Qed.

Lemma loop_keeps_eligible (Π : platform) python_cmd pkgs lists s p :
  tool_keeps_descriptors Π →
  eligible (fs (final (for_each_acc pkgs (build_package Π python_cmd) lists s))) p
    = eligible (fs s) p.
Proof.
  intros Hkeep. revert lists s.
  induction pkgs as [|package pkgs IH]; intros [built failed] s; [done|].
  rewrite for_each_acc_cons, build_package_eq.
  destruct (eligible (fs s) package).
  2:{ by rewrite IH. }
  cbv zeta.
  pose proof (eligible_clean Π package p (record (EPrint (Building package)) s))
    as Hclean.
  destruct (clean_previous_builds _ _ _ _) as [[] s1|e s1]; simpl in Hclean; [|done].
  destruct (spawn _ _ _ _ _) as [rc out err after|rc after|kind filename] eqn:Hsp;
    [| |done].
  - assert (eligible after p = eligible (fs s1) p) as Hsp'
      by (eapply Hkeep; by rewrite Hsp).
    destruct (rc =? 0)%Z; rewrite IH; cbn [fs]; exact (eq_trans Hsp' Hclean).
  - assert (eligible after p = eligible (fs s1) p) as Hsp'
      by (eapply Hkeep; by rewrite Hsp).
    exact (eq_trans Hsp' Hclean).
Qed.

(** The workspace a run ends with is the one its loop ends with, and the
    loop starts from the one line 60 leaves. *)
Lemma run_final_workspace (Π : platform) pkgs m :
  let s1 := final (mkdir_parents_exist_ok Π dist_dir
              (record (EPrint (SectionBanner "Building Python Packages for Distribution"))
                 (start m))) in
  fs (final (run Π pkgs (start m))) = fs s1 ∨
  ∃ lists,
    fs (final (run Π pkgs (start m)))
      = fs (final (for_each_acc pkgs (build_package Π (chosen_python Π m)) lists
                     (record (EPrint (OutputDirectory (path_str Π dist_dir))) s1))).
Proof.
  intros s1. subst s1. rewrite run_eq.
  destruct (mkdir_parents_exist_ok _ _ _) as [[] s1|e s1]; [|by left].
  right. exists ([], []). cbn [final start fs].
  destruct (for_each_acc _ _ _ _) as [[built failed] s2|e s2]; [|done].
  destruct (print_summary_final Π built failed s2) as (ws & _ & Hfin & _).
  destruct (print_summary _ _ _ _) as [[] s3|e3 s3]; cbn [final] in *; by subst.
Qed.

(** X6. Whatever its outcome, a run changes only what line 60 creates,
    what the cleaning of lines 79-82 removes, and what the build tool
    changes: an entry that is neither the output directory nor
    above it, that lies in none of the four stale directories of a
    candidate, and that the build tool leaves alone, is after the run what
    it was before. *)
Theorem run_touches_only (Π : platform) (pkgs : list string) (m : filesystem)
    (q : path) :
  tool_keeps Π q →
  ¬ q `prefix_of` dist_dir →
  (∀ p c, p ∈ pkgs → c ∈ cleanup_dirs p →
          ¬ (python_dir </> p </> c) `prefix_of` q) →
  fs (final (run Π pkgs (start m))) !! q = m !! q.
Proof.
  intros Hkeep Hout Hstale.
  destruct (mkdir_from_final Π dist_dir [] dist_dir
              (record (EMkdir dist_dir)
                 (record (EPrint (SectionBanner "Building Python Packages for Distribution"))
                    (start m))))
    as (_ & _ & Hmk).
  specialize (Hmk q Hout). cbn [record fs start] in Hmk.
  destruct (run_final_workspace Π pkgs m) as [->|[lists ->]].
  - exact Hmk.
  - rewrite loop_frame by done. exact Hmk.
Qed.

Lemma demo_keeps_sources (q : path) : python_dir `prefix_of` q → tool_keeps demo q.
Proof.
  intros [k ->] h cmd cwd m after H. simpl in H. unfold demo_spawn in H.
  destruct (last cwd) as [pkg|]; [|done].
  case_bool_decide; simplify_eq/=; [done|].
  by rewrite lookup_insert_ne.
Qed.

Lemma run_touches_only_witness :
  fs (final demo_run) !! (python_dir </> "core" </> "pyproject.toml")
    = demo_fs !! (python_dir </> "core" </> "pyproject.toml").
Proof.
  apply (run_touches_only demo packages demo_fs
           (python_dir </> "core" </> "pyproject.toml")).
  - apply demo_keeps_sources. by exists ["core"; "pyproject.toml"].
  - intros [k Hk]. discriminate Hk.
  - intros p c _ Hc [k Hk]. apply (cleanup_not_descriptor p c Hc).
    injection Hk as _ ->. destruct k; [reflexivity|discriminate].
Defined.

(** X7. Nothing the script does itself decides whether a candidate is
    eligible next time: the output directory lies outside the package
    directories, and the cleaning removes neither a package directory nor
    a build descriptor.  So with a build tool that leaves these alone, the
    candidates eligible after a run, whatever its outcome, are those
    eligible before it, and a second run on the workspace the first one
    left starts the same packages. *)
Theorem rerun_starts_the_same (Π : platform) (pkgs : list string)
    (m : filesystem) :
  tool_keeps_descriptors Π →
  (∀ p, eligible (fs (final (run Π pkgs (start m)))) p = eligible m p) ∧
  (∀ r s' r2 s2,
     run Π pkgs (start m) = Ok r s' →
     run Π pkgs (start (fs s')) = Ok r2 s2 →
     started (log s2) = started (log s')).
Proof.
  intros Hkeep.
  assert (∀ p, eligible (fs (final (run Π pkgs (start m)))) p = eligible m p)
    as Hsame.
  { intros p.
    pose proof (eligible_mkdir Π
      (record (EPrint (SectionBanner "Building Python Packages for Distribution"))
         (start m)) _ p eq_refl) as Hmk.
    cbn [record fs start] in Hmk.
    destruct (run_final_workspace Π pkgs m) as [->|[lists ->]].
    - exact Hmk.
    - rewrite loop_keeps_eligible by done. exact Hmk. }
  split; [done|].
  intros r s' r2 s2 Hrun1 Hrun2.
  rewrite (run_started_eligible Π pkgs m r s' Hrun1 Hkeep).
  rewrite (run_started_eligible Π pkgs (fs s') r2 s2 Hrun2 Hkeep).
  apply list_filter_iff. intros p.
  specialize (Hsame p). rewrite Hrun1 in Hsame. cbn [final] in Hsame.
  by rewrite Hsame.
Qed.

Lemma rerun_starts_the_same_witness :
  eligible (fs (final demo_run)) "core" = eligible demo_fs "core" ∧
  eligible (fs (final demo_run)) "notification" = eligible demo_fs "notification".
Proof.
  destruct (rerun_starts_the_same demo packages demo_fs demo_keeps_descriptors)
    as [Hsame _].
  split; apply Hsame.
Defined.

(** ** Runs in which only builds fail *)









(** ** The state in which the build tool is started *)

Section OtherTool.

Variable Π : platform.
Variable sp : list event → list string → path → filesystem → proc.

Lemma mkdir_from_with_spawn target made rest s :
  mkdir_from (with_spawn Π sp) target made rest s = mkdir_from Π target made rest s.
Proof.
  revert made s. induction rest as [|c rest IH]; intros made s; [done|].
  rewrite !mkdir_from_cons. cbn [with_spawn new_dir_size].
  destruct (fs s !! (made </> c)) as [n|]; [|by rewrite IH].
  destruct (is_dir n); [by rewrite IH|done].
Qed.

Lemma clean_dirs_with_spawn package_dir cs s :
  clean_dirs (with_spawn Π sp) package_dir cs s = clean_dirs Π package_dir cs s.
Proof.
  revert s. induction cs as [|c cs IH]; intros s; [done|].
  rewrite !clean_dirs_cons.
  change (rmtree (with_spawn Π sp) (package_dir </> c) s)
    with (rmtree Π (package_dir </> c) s).
  destruct (if bool_decide _ then _ else _) as [[] s1|e s1]; [apply IH|done].
Qed.

Lemma loop_with_spawn python_cmd pkgs lists s :
  (∀ h package m,
     package ∈ pkgs → eligible m package = true →
     (∀ c, c ∈ cleanup_dirs package → m !! (python_dir </> package </> c) = None) →
     sp h (build_cmd Π python_cmd) (python_dir </> package) m
       = spawn Π h (build_cmd Π python_cmd) (python_dir </> package) m) →
  for_each_acc pkgs (build_package (with_spawn Π sp) python_cmd) lists s
    = for_each_acc pkgs (build_package Π python_cmd) lists s.
Proof.
  revert lists s. induction pkgs as [|package pkgs IH]; intros [built failed] s Hsp;
    [done|].
  assert (∀ lists1 s1,
    for_each_acc pkgs (build_package (with_spawn Π sp) python_cmd) lists1 s1
      = for_each_acc pkgs (build_package Π python_cmd) lists1 s1) as IH'.
  { intros lists1 s1. apply IH. intros h p m Hp. apply Hsp. by right. }
  rewrite !for_each_acc_cons, !build_package_eq.
  destruct (eligible (fs s) package) eqn:He; [|apply IH'].
  cbv zeta. unfold clean_previous_builds. rewrite clean_dirs_with_spawn.
  pose proof (eligible_clean Π package package (record (EPrint (Building package)) s))
    as Hel.
  unfold clean_previous_builds in Hel.
  destruct (clean_dirs Π _ _ _) as [[] s1|e s1] eqn:Hclean; [|done].
  cbn [final] in Hel. cbn [record fs] in Hel. rewrite He in Hel.
  change (spawn (with_spawn Π sp)) with sp.
  change (build_cmd (with_spawn Π sp) python_cmd) with (build_cmd Π python_cmd).
  rewrite Hsp; [|by left|done|by eapply clean_dirs_removed].
  destruct (spawn Π _ _ _ _) as [rc out err after|rc after|kind filename];
    [|done..].
  destruct (rc =? 0)%Z; apply IH'.
Qed.

End OtherTool.

(** X9. The build tool of a package is only ever started in a directory
    that has its build descriptor and none of its four stale directories:
    what the tool would do elsewhere has no influence on a run.  Two
    build tools that behave alike, for the command line of the run, in
    every directory of a candidate that is in this state give the same run,
    event for event, with the same result and the same workspace. *)
Theorem tool_started_in_clean_directory (Π : platform)
    (sp : list event → list string → path → filesystem → proc)
    (pkgs : list string) (m0 : filesystem) :
  let cmd := build_cmd Π (chosen_python Π m0) in
  (∀ h package m,
     package ∈ pkgs → eligible m package = true →
     (∀ c, c ∈ cleanup_dirs package → m !! (python_dir </> package </> c) = None) →
     sp h cmd (python_dir </> package) m = spawn Π h cmd (python_dir </> package) m) →
  run (with_spawn Π sp) pkgs (start m0) = run Π pkgs (start m0).
Proof.
  intros cmd Hsp. rewrite !run_eq.
  unfold mkdir_parents_exist_ok. rewrite mkdir_from_with_spawn.
  destruct (mkdir_from Π _ _ _ _) as [[] s1|e s1]; [|done].
  change (chosen_python (with_spawn Π sp) (fs (start m0)))
    with (chosen_python Π m0).
  change (path_str (with_spawn Π sp) dist_dir) with (path_str Π dist_dir).
  change (fs (start m0)) with m0.
  by rewrite loop_with_spawn.
Qed.

Lemma tool_started_in_clean_directory_witness :
  run (with_spawn demo picky_spawn) packages (start demo_fs) = demo_run.
Proof.
  apply (tool_started_in_clean_directory demo picky_spawn packages demo_fs).
  intros h package m _ _ Hclean. unfold picky_spawn.
  rewrite (Hclean "build" (list_elem_of_here _ _)). reflexivity.
Defined.

(** ** Failed builds whose output decodes, lines 43-44 and 93-96 *)


